(** * NASA NEO ETL pipeline ([etl/main.py]): a shallow embedding and its properties

    The pipeline is a linear Cloud Function: fetch the NEO feed for today's UTC
    date, archive the raw JSON in Cloud Storage, flatten it into rows, append
    the rows to a BigQuery table, answer with a small JSON summary.

    The embedding follows the Python text function by function.
    - Decoded JSON is a Python object tree ([value]); mappings are finite maps
      with string keys.
    - A Python expression that may raise is a [result]; the statements that
      also read the clock, print, or call a cloud client run in the monad [M],
      which threads a [state] (clock reads taken, external calls performed)
      and reads the outside world from an [env].
    - Floats are IEEE binary64 values ([spec_float] with precision 53). *)

From Stdlib Require Import ZArith NArith String Ascii List Bool Lia DecimalString.
From Stdlib Require Import Floats.SpecFloat.
From stdpp Require Import gmap strings list.

#[local] Set Warnings "-register-all".
#[local] Open Scope string_scope.
#[local] Open Scope Z_scope.

(** ** Exceptions and results *)

(** The exception classes the modelled code can raise.  [ClientError] stands
    for whatever a cloud client library raises (credentials, permissions,
    network); its argument names the failing client call. *)
Inductive exn :=
| KeyError (key : string)
| KeyErrorInt (key : Z)
| TypeError
| ValueError
| IndexError
| AttributeError
| OverflowError
| HTTPError (status_code : Z)
| ConnectionError
| JSONDecodeError
| ClientError (what : string).

Inductive result (A : Type) :=
| Ok (a : A)
| Raise (e : exn).
Arguments Ok {A} a.
Arguments Raise {A} e.

#[global] Instance result_ret : MRet result := fun A a => Ok a.
#[global] Instance result_bind : MBind result := fun A B f r =>
  match r with
  | Ok a => f a
  | Raise e => Raise e
  end.

Definition is_Ok {A} (r : result A) : bool :=
  match r with Ok _ => true | Raise _ => false end.

(** ** Floats *)

Abbreviation float := spec_float.

Definition float_prec : Z := 53.
Definition float_emax : Z := 1024.

(** Nearest-even rounding of the integer [m] scaled by [2^e]. *)
Definition float_round (m e : Z) (neg : bool) : float :=
  binary_normalize float_prec float_emax (if neg then - m else m) e neg.

(** Correctly rounded value of the decimal [m * 10^e10], [0 <= m].  For a
    negative exponent the quotient is computed with at least sixty
    significant bits and a sticky bit recording a non-zero remainder, which is
    enough for one final rounding to 53 bits. *)
Definition float_of_decimal (neg : bool) (m e10 : Z) : float :=
  if m =? 0 then S754_zero neg
  else if 0 <=? e10 then float_round (m * 10 ^ e10) 0 neg
  else
    let d := 10 ^ (- e10) in
    let s := 64 + Z.log2 d in
    let (q, r) := Z.div_eucl (m * 2 ^ s) d in
    float_round (2 * q + (if r =? 0 then 0 else 1)) (- (s + 1)) neg.

(** [float(n)] for a Python int. *)
Definition float_of_int (z : Z) : result float :=
  match float_round (Z.abs z) 0 (z <? 0) with
  | S754_infinity _ => Raise OverflowError
  | f => Ok f
  end.

(** *** [float(s)] for a string

    Grammar of CPython's [float] on a string of ASCII characters: the
    surrounding whitespace (tab, line feed, vertical tab, form feed, carriage
    return, space) is dropped; a single underscore may sit between two digits;
    then an optional sign followed by [inf], [infinity] or [nan] in any letter
    case, or by a decimal number with an optional exponent.

    Strings are byte strings here.  On a string with a byte above 127 the
    model answers [ValueError]; CPython does not always, since it also accepts
    the spaces and decimal digits of Unicode.  The model is therefore exact
    on ASCII strings ([ascii_only]) and on every string it accepts (it
    accepts ASCII strings only, [float_of_string_accepts_ascii]), and a
    statement that rests on [float] REJECTING a string assumes the string
    ASCII. *)

(** The whitespace [float] strips: the bytes 9 to 13 and 32.  The separators
    28 to 31 are not stripped, although [str.isspace] holds of them. *)
Definition is_space (c : ascii) : bool :=
  let n := nat_of_ascii c in
  ((9 <=? n) && (n <=? 13) || (n =? 32))%nat.

(** An ASCII character. *)
Definition is_ascii (c : ascii) : Prop := (nat_of_ascii c <? 128)%nat = true.

(** All the characters of the string are ASCII. *)
Definition ascii_only (s : string) : bool :=
  forallb (fun c => (nat_of_ascii c <? 128)%nat) (list_ascii_of_string s).

Definition is_digit (c : ascii) : bool :=
  let n := nat_of_ascii c in ((48 <=? n) && (n <=? 57))%nat.

Definition digit_value (c : ascii) : Z := Z.of_nat (nat_of_ascii c) - 48.

Definition to_lower (c : ascii) : ascii :=
  let n := nat_of_ascii c in
  if ((65 <=? n) && (n <=? 90))%nat then ascii_of_nat (n + 32) else c.

Fixpoint drop_spaces (l : list ascii) : list ascii :=
  match l with
  | c :: l' => if is_space c then drop_spaces l' else l
  | [] => []
  end.

Definition strip (l : list ascii) : list ascii :=
  rev (drop_spaces (rev (drop_spaces l))).

(** Removes the underscores, each of which must stand between two digits. *)
Fixpoint drop_underscores (prev_digit : bool) (l : list ascii) : option (list ascii) :=
  match l with
  | [] => Some []
  | c :: l' =>
      if Ascii.eqb c "_"%char then
        match l' with
        | d :: _ =>
            if prev_digit && is_digit d then drop_underscores false l' else None
        | [] => None
        end
      else cons c <$> drop_underscores (is_digit c) l'
  end.

(** Reads a run of digits: accumulated value, number of digits, rest. *)
Fixpoint read_digits (acc count : Z) (l : list ascii) : Z * Z * list ascii :=
  match l with
  | c :: l' =>
      if is_digit c then read_digits (10 * acc + digit_value c) (count + 1) l'
      else (acc, count, l)
  | [] => (acc, count, [])
  end.

Definition read_sign (l : list ascii) : bool * list ascii :=
  match l with
  | c :: l' =>
      if Ascii.eqb c "-"%char then (true, l')
      else if Ascii.eqb c "+"%char then (false, l')
      else (false, l)
  | [] => (false, [])
  end.

(** The exponent part: empty, or [e]/[E], an optional sign and digits. *)
Definition read_exponent (l : list ascii) : option Z :=
  match l with
  | [] => Some 0
  | c :: l' =>
      if Ascii.eqb (to_lower c) "e"%char then
        let (neg, l1) := read_sign l' in
        match read_digits 0 0 l1 with
        | (e, n, []) => if 0 <? n then Some (if neg then - e else e) else None
        | _ => None
        end
      else None
  end.

(** Mantissa digits, optional point and fraction, exponent. *)
Definition read_decimal (neg : bool) (l : list ascii) : option float :=
  let '(ip, ni, l1) := read_digits 0 0 l in
  let '(m, nf, l2) :=
    match l1 with
    | c :: l1' => if Ascii.eqb c "."%char then read_digits ip 0 l1' else (ip, 0, l1)
    | [] => (ip, 0, l1)
    end in
  if 0 <? ni + nf then
    e ← read_exponent l2; Some (float_of_decimal neg m (e - nf))
  else None.

Definition float_of_chars (l : list ascii) : option float :=
  l1 ← drop_underscores false (strip l);
  let (neg, l2) := read_sign l1 in
  let word := string_of_list_ascii (map to_lower l2) in
  if String.eqb word "inf" || String.eqb word "infinity" then Some (S754_infinity neg)
  else if String.eqb word "nan" then Some S754_nan
  else read_decimal neg l2.

Definition float_of_string (s : string) : result float :=
  match float_of_chars (list_ascii_of_string s) with
  | Some f => Ok f
  | None => Raise ValueError
  end.

(** ** Python objects *)

(** What [resp.json()] can return: [None], booleans, integers, floats,
    strings, lists, and mappings with string keys. *)
Inductive value :=
| VNone
| VBool (b : bool)
| VInt (z : Z)
| VFloat (f : float)
| VStr (s : string)
| VList (l : list value)
| VDict (d : gmap string value).

(** Truth value of an object, as tested by [if] and [not]. *)
Definition truthy (v : value) : bool :=
  match v with
  | VNone => false
  | VBool b => b
  | VInt z => negb (z =? 0)
  | VFloat (S754_zero _) => false
  | VFloat _ => true
  | VStr s => negb (String.eqb s "")
  | VList l => negb (Nat.eqb (length l) 0)
  | VDict d => negb (Nat.eqb (size d) 0)
  end.

(** [v[k]] for a string key [k]: only a mapping can be subscripted by a
    string, and a missing key raises [KeyError]. *)
Definition getitem (v : value) (k : string) : result value :=
  match v with
  | VDict d =>
      match d !! k with
      | Some x => Ok x
      | None => Raise (KeyError k)
      end
  | _ => Raise TypeError
  end.

(** [v[i]] for a literal index [i >= 0].  A mapping decoded from JSON has no
    integer key. *)
Definition getitem_index (v : value) (i : nat) : result value :=
  match v with
  | VList l =>
      match nth_error l i with
      | Some x => Ok x
      | None => Raise IndexError
      end
  | VStr s =>
      match String.get i s with
      | Some c => Ok (VStr (String c ""))
      | None => Raise IndexError
      end
  | VDict _ => Raise (KeyErrorInt (Z.of_nat i))
  | _ => Raise TypeError
  end.

(** [v.get(k, default)]: a method of mappings only. *)
Definition dict_get (v : value) (k : string) (default : value) : result value :=
  match v with
  | VDict d => Ok (match d !! k with Some x => x | None => default end)
  | _ => Raise AttributeError
  end.

(** The items a [for] loop over [v] visits: the elements of a list, the keys
    of a mapping, the characters of a string. *)
Definition iterate (v : value) : result (list value) :=
  match v with
  | VList l => Ok l
  | VDict d => Ok (map (fun kv => VStr (fst kv)) (map_to_list d))
  | VStr s => Ok (map (fun c => VStr (String c "")) (list_ascii_of_string s))
  | _ => Raise TypeError
  end.

(** [float(v)]. *)
Definition py_float (v : value) : result float :=
  match v with
  | VFloat f => Ok f
  | VInt z => float_of_int z
  | VBool b => float_of_int (if b then 1 else 0)
  | VStr s => float_of_string s
  | _ => Raise TypeError
  end.

(** ** Dates and text *)

Record date := { year : N; month : N; day : N }.

Record datetime :=
  { dt_date : date; hour : N; minute : N; second : N; microsecond : N }.

(** [str(n)] for a non-negative integer. *)
Definition str_N (n : N) : string := NilEmpty.string_of_uint (N.to_uint n).

Fixpoint zeros (n : nat) : string :=
  match n with
  | O => ""
  | S n' => String "0" (zeros n')
  end.

(** The format [{n:0wd}]. *)
Definition pad (width : nat) (n : N) : string :=
  let s := str_N n in zeros (width - String.length s) ++ s.

(** [str(date)]: the ISO form [YYYY-MM-DD]. *)
Definition str_date (d : date) : string :=
  pad 4 (year d) ++ "-" ++ pad 2 (month d) ++ "-" ++ pad 2 (day d).

(** [datetime.isoformat()]: the microseconds are printed unless they are 0. *)
Definition isoformat (t : datetime) : string :=
  str_date (dt_date t) ++ "T" ++ pad 2 (hour t) ++ ":" ++ pad 2 (minute t)
    ++ ":" ++ pad 2 (second t)
    ++ (if (microsecond t =? 0)%N then "" else "." ++ pad 6 (microsecond t)).

(** The fields of the date fit the widths of its ISO form, as those of every
    Python [date] do (years 1 to 9999, months 1 to 12, days 1 to 31). *)
Definition fits (d : date) : Prop :=
  (year d < 10000)%N ∧ (month d < 100)%N ∧ (day d < 100)%N.

(** The number a zero-padded decimal stands for. *)
Definition unpad (s : string) : option N :=
  N.of_uint <$> NilEmpty.uint_of_string s.

(** [pad width] keeps the width and can be read back, below [bound]. *)
Definition pad_checked (width bound : nat) : bool :=
  forallb (fun i =>
             let n := N.of_nat i in
             Nat.eqb (String.length (pad width n)) width
             && match unpad (pad width n) with
                | Some m => N.eqb m n
                | None => false
                end)
          (seq 0 bound).

(** An environment value inside an f-string: [None] prints as [None]. *)
Definition fmt (o : option string) : string :=
  match o with
  | Some s => s
  | None => "None"
  end.

(** Truth value of a configuration value ([None] or a string). *)
Definition truthy_opt (o : option string) : bool :=
  match o with
  | Some s => negb (String.eqb s "")
  | None => false
  end.

(** A text handed to a client or to the HTTP framework: a plain string, or
    the output of [json.dumps] on an object.  The serializer is a library
    primitive and stays symbolic. *)
Inductive text :=
| Plain (s : string)
| Json (v : value).

Definition json_dumps (v : value) : text := Json v.

(** Modelled from the spec: [json.loads], the library parser that reads a
    stored blob back.  It is not in the source; the specification describes
    it by the round trip it states of the Archiver ("the stored blob, when
    parsed back as JSON, is structurally equal to the payload passed in"):
    parsing what [json.dumps] wrote for an object gives that object.  The
    parse of a string that [json.dumps] did not write is not described
    ([None]). *)
Definition json_loads (t : text) : option value :=
  match t with
  | Json v => Some v
  | Plain _ => None
  end.

(** ** Rows, the outside world, and the monad *)

(** One flattened row (the dict built in [transform_records]). *)
Record record := {
  asteroid_id : value;
  name : value;
  absolute_magnitude_h : float;
  estimated_diameter_min_km : float;
  estimated_diameter_max_km : float;
  is_potentially_hazardous : value;
  close_approach_date : value;
  relative_velocity_km_s : float;
  miss_distance_km : float;
  orbiting_body : value;
  ingestion_timestamp : string
}.

(** What [requests.get] returns: the status code and the outcome of
    [resp.json()]. *)
Record response := { status_code : Z; json : result value }.

(** The outside world of one invocation: the three module-level
    configuration values read from the process environment, the successive
    readings of the UTC clock, and the answers of the feed API, of Cloud
    Storage and of BigQuery.  Building a cloud client is folded into the call
    made on it. *)
Record env := {
  NASA_API_KEY : option string;
  BUCKET_NAME : option string;
  BQ_PROJECT : option string;
  utcnow : nat -> datetime;
  requests_get : string -> result response;
  upload_from_string : option string -> string -> text -> string -> result unit;
  insert_rows_json : option string -> string -> list record -> result (list value)
}.

Definition BQ_DATASET : string := "nasa_neo".
Definition BQ_TABLE : string := "raw_neo_feed".

(** The observable actions, in the order in which they happen. *)
Inductive event :=
| Get (url : string)
| Upload (bucket : option string) (blob_path : string) (body : text)
    (content_type : string)
| Insert (project : option string) (table_id : string) (rows : list record)
| Print (args : list value).

Record state := { clock_reads : nat; trace : list event }.

Definition M (A : Type) : Type := state -> result A * state.

#[global] Instance M_ret : MRet M := fun A a s => (Ok a, s).
#[global] Instance M_bind : MBind M := fun A B f m s =>
  match m s with
  | (Ok a, s') => f a s'
  | (Raise e, s') => (Raise e, s')
  end.

(** A pure expression evaluated inside a statement. *)
Definition lift {A} (r : result A) : M A := fun s => (r, s).

(** The state once the events [evs] have happened. *)
Definition after (s : state) (evs : list event) : state :=
  {| clock_reads := clock_reads s; trace := trace s ++ evs |}.

Definition emit (ev : event) : M unit := fun s => (Ok tt, after s [ev]).

(** An external call: it is recorded, then answers or raises. *)
Definition call {A} (ev : event) (answer : result A) : M A :=
  emit ev;; lift answer.

Definition print (args : list value) : M unit := emit (Print args).

(** The state once [n] more clock readings have been taken. *)
Definition tick (n : nat) (s : state) : state :=
  {| clock_reads := clock_reads s + n; trace := trace s |}.

(** [datetime.utcnow()]. *)
Definition now (E : env) : M datetime := fun s =>
  (Ok (utcnow E (clock_reads s)), tick 1 s).

Definition is_external (ev : event) : bool :=
  match ev with
  | Print _ => false
  | _ => true
  end.

Definition is_insert (ev : event) : bool :=
  match ev with
  | Insert _ _ _ => true
  | _ => false
  end.

(** Every event but an insert call that carries no row. *)
Definition carries_rows (ev : event) : bool :=
  match ev with
  | Insert _ _ [] => false
  | _ => true
  end.

(** The events a step adds to the trace all satisfy [P]. *)
Definition adds (P : event → bool) (s s' : state) : Prop :=
  ∃ evs, trace s' = (trace s ++ evs)%list ∧ forallb P evs = true.

(** The external calls made between [s] and [s'], in order, are [calls]. *)
Definition calls_between (s s' : state) (calls : list event) : Prop :=
  ∃ evs, trace s' = (trace s ++ evs)%list ∧ List.filter is_external evs = calls.

(** ** The program *)

(** [resp.raise_for_status()]. *)
Definition raise_for_status (resp : response) : result unit :=
  if (400 <=? status_code resp) && (status_code resp <? 600)
  then Raise (HTTPError (status_code resp))
  else Ok tt.

(** The f-string of [fetch_nasa_data]. *)
Definition feed_url (E : env) (today : date) : string :=
  "https://api.nasa.gov/neo/rest/v1/feed"
    ++ "?start_date=" ++ str_date today ++ "&end_date=" ++ str_date today
    ++ "&api_key=" ++ fmt (NASA_API_KEY E).

Definition fetch_nasa_data (E : env) : M (value * date) :=
  t ← now E;
  let today := dt_date t in
  let url := feed_url E today in
  resp ← call (Get url) (requests_get E url);
  lift (raise_for_status resp);;
  data ← lift (json resp);
  mret (data, today).

Definition blob_path (d : date) : string :=
  "raw/neo/" ++ str_N (year d) ++ "/" ++ pad 2 (month d) ++ "/" ++ pad 2 (day d)
    ++ "/neo_" ++ str_date d ++ ".json".

(** The line printed once the blob is written. *)
Definition saved_line (E : env) (d : date) : event :=
  Print [VStr ("Raw JSON saved to gs://" ++ fmt (BUCKET_NAME E) ++ "/" ++ blob_path d)].

(** The one write to Cloud Storage. *)
Definition upload_of (E : env) (data : value) (d : date) : event :=
  Upload (BUCKET_NAME E) (blob_path d) (json_dumps data) "application/json".

Definition save_raw_to_gcs (E : env) (data : value) (d : date) : M unit :=
  let blob_path := blob_path d in
  let body := json_dumps data in
  call (Upload (BUCKET_NAME E) blob_path body "application/json")
       (upload_from_string E (BUCKET_NAME E) blob_path body "application/json");;
  print [VStr ("Raw JSON saved to gs://" ++ fmt (BUCKET_NAME E) ++ "/" ++ blob_path)].

(** The dict literal of [transform_records]: the entries are evaluated from
    top to bottom, the clock is read last. *)
Definition build_record (E : env) (obj approach : value) : M record :=
  v_id ← lift (getitem obj "neo_reference_id");
  v_name ← lift (getitem obj "name");
  v_mag ← lift (getitem obj "absolute_magnitude_h" ≫= py_float);
  v_dmin ← lift (x ← getitem obj "estimated_diameter";
                 y ← getitem x "kilometers";
                 z ← getitem y "estimated_diameter_min";
                 py_float z);
  v_dmax ← lift (x ← getitem obj "estimated_diameter";
                 y ← getitem x "kilometers";
                 z ← getitem y "estimated_diameter_max";
                 py_float z);
  v_haz ← lift (getitem obj "is_potentially_hazardous_asteroid");
  v_date ← lift (getitem approach "close_approach_date");
  v_vel ← lift (x ← getitem approach "relative_velocity";
                y ← getitem x "kilometers_per_second";
                py_float y);
  v_miss ← lift (x ← getitem approach "miss_distance";
                 y ← getitem x "kilometers";
                 py_float y);
  v_body ← lift (getitem approach "orbiting_body");
  t ← now E;
  mret {| asteroid_id := v_id;
          name := v_name;
          absolute_magnitude_h := v_mag;
          estimated_diameter_min_km := v_dmin;
          estimated_diameter_max_km := v_dmax;
          is_potentially_hazardous := v_haz;
          close_approach_date := v_date;
          relative_velocity_km_s := v_vel;
          miss_distance_km := v_miss;
          orbiting_body := v_body;
          ingestion_timestamp := isoformat t |}.

(** The [for obj in neos] loop; [records] is the list appended to. *)
Fixpoint transform_loop (E : env) (neos : list value) (records : list record)
  : M (list record) :=
  match neos with
  | [] => mret records
  | obj :: rest =>
      cad ← lift (getitem obj "close_approach_data");
      if negb (truthy cad) then transform_loop E rest records
      else
        approach ← lift (getitem_index cad 0);
        record ← build_record E obj approach;
        transform_loop E rest (records ++ [record])
  end.

Definition str_len {A} (l : list A) : string := str_N (N.of_nat (length l)).

(** [data["near_earth_objects"].get(str(date), [])], as the items the loop
    will visit. *)
Definition date_objects (data : value) (d : date) : result (list value) :=
  x ← getitem data "near_earth_objects";
  neos ← dict_get x (str_date d) (VList []);
  iterate neos.

Definition transform_records (E : env) (data : value) (d : date)
  : M (list record) :=
  neos ← lift (date_objects data d);
  records ← transform_loop E neos [];
  print [VStr ("Transformed " ++ str_len records ++ " records")];;
  mret records.

(** The f-string of [load_to_bigquery]. *)
Definition table_id (E : env) : string :=
  fmt (BQ_PROJECT E) ++ "." ++ BQ_DATASET ++ "." ++ BQ_TABLE.

(** The one call to the insert API. *)
Definition insert_of (E : env) (records : list record) : event :=
  Insert (BQ_PROJECT E) (table_id E) records.

Definition load_to_bigquery (E : env) (records : list record) : M unit :=
  let table_id := table_id E in
  errors ← call (Insert (BQ_PROJECT E) table_id records)
                (insert_rows_json E (BQ_PROJECT E) table_id records);
  if truthy (VList errors) then
    print [VStr "Errors occurred:"; VList errors]
  else
    print [VStr ("Inserted " ++ str_len records ++ " rows into " ++ table_id)].

(** What the entry point hands back to the HTTP framework: a
    [(body, status)] pair or a [(body, status, headers)] triple. *)
Inductive http_response :=
| Response2 (body : string) (status : Z)
| Response3 (body : text) (status : Z) (headers : list (string * string)).

Definition response_body (rows : nat) (d : date) : value :=
  VDict (<["status" := VStr "success"]>
        (<["rows_inserted" := VInt (Z.of_nat rows)]>
        (<["date" := VStr (str_date d)]> ∅))).

(** The success answer of the entry point. *)
Definition success_response (rows : nat) (d : date) : http_response :=
  Response3 (json_dumps (response_body rows d)) 200
    [("Content-Type", "application/json")].

(** The test [NASA_API_KEY and BUCKET_NAME and BQ_PROJECT]. *)
Definition configured (E : env) : bool :=
  truthy_opt (NASA_API_KEY E) && truthy_opt (BUCKET_NAME E)
  && truthy_opt (BQ_PROJECT E).

(** The state once the entry point has printed its first line. *)
Definition started (s : state) : state :=
  after s [Print [VStr "Starting NASA NEO ETL..."]].

Definition etl_nasa_neo (E : env) : M http_response :=
  print [VStr "Starting NASA NEO ETL..."];;
  if negb (truthy_opt (NASA_API_KEY E) && truthy_opt (BUCKET_NAME E)
           && truthy_opt (BQ_PROJECT E)) then
    let msg := "Missing required environment variables" in
    print [VStr msg];;
    mret (Response2 msg 500)
  else
    '(data, d) ← fetch_nasa_data E;
    save_raw_to_gcs E data d;;
    records ← transform_records E data d;
    (if negb (Nat.eqb (length records) 0) then load_to_bigquery E records
     else mret tt);;
    mret (Response3 (json_dumps (response_body (length records) d)) 200
            [("Content-Type", "application/json")]).

(** ** The payload as the specification reads it

    The specification speaks of the fields of an asteroid object and of its
    first close-approach entry.  These definitions read a payload by paths of
    keys, independently of the order in which the program evaluates its
    subscripts. *)

Definition member (v : value) (k : string) : option value :=
  match v with
  | VDict d => d !! k
  | _ => None
  end.

Definition lookup_path (v : value) (path : list string) : option value :=
  foldl (fun o k => o ≫= fun x => member x k) (Some v) path.

Definition number_at (v : value) (path : list string) : option float :=
  x ← lookup_path v path;
  match py_float x with
  | Ok f => Some f
  | Raise _ => None
  end.

Definition first_approach (obj : value) : option value :=
  match member obj "close_approach_data" with
  | Some (VList (a :: _)) => Some a
  | _ => None
  end.

Definition has_approach (obj : value) : bool :=
  match first_approach obj with
  | Some _ => true
  | None => false
  end.

(** The object has a close-approach list and it is empty. *)
Definition no_approach (obj : value) : Prop :=
  member obj "close_approach_data" = Some (VList []).

(** [r] combines the fields of [obj] with those of its first close-approach
    entry, the five numeric ones coerced to floats. *)
Definition flattens (obj : value) (r : record) : Prop :=
  ∃ a, first_approach obj = Some a
    ∧ lookup_path obj ["neo_reference_id"] = Some (asteroid_id r)
    ∧ lookup_path obj ["name"] = Some (name r)
    ∧ number_at obj ["absolute_magnitude_h"] = Some (absolute_magnitude_h r)
    ∧ number_at obj ["estimated_diameter"; "kilometers"; "estimated_diameter_min"]
        = Some (estimated_diameter_min_km r)
    ∧ number_at obj ["estimated_diameter"; "kilometers"; "estimated_diameter_max"]
        = Some (estimated_diameter_max_km r)
    ∧ lookup_path obj ["is_potentially_hazardous_asteroid"]
        = Some (is_potentially_hazardous r)
    ∧ lookup_path a ["close_approach_date"] = Some (close_approach_date r)
    ∧ number_at a ["relative_velocity"; "kilometers_per_second"]
        = Some (relative_velocity_km_s r)
    ∧ number_at a ["miss_distance"; "kilometers"] = Some (miss_distance_km r)
    ∧ lookup_path a ["orbiting_body"] = Some (orbiting_body r).

(** The keys the Transformer reads in an asteroid object, and in its first
    close-approach entry. *)
Definition object_keys : list string :=
  [ "close_approach_data"; "neo_reference_id"; "name"; "absolute_magnitude_h";
    "estimated_diameter"; "is_potentially_hazardous_asteroid" ].

Definition approach_keys : list string :=
  [ "close_approach_date"; "relative_velocity"; "miss_distance"; "orbiting_body" ].

(** The fields a row needs, in the order of the dict literal, with a flag for
    those passed to [float]: first those of the object, then those of the
    approach entry. *)
Definition object_fields : list (list string * bool) :=
  [ (["neo_reference_id"], false);
    (["name"], false);
    (["absolute_magnitude_h"], true);
    (["estimated_diameter"; "kilometers"; "estimated_diameter_min"], true);
    (["estimated_diameter"; "kilometers"; "estimated_diameter_max"], true);
    (["is_potentially_hazardous_asteroid"], false) ].

Definition approach_fields : list (list string * bool) :=
  [ (["close_approach_date"], false);
    (["relative_velocity"; "kilometers_per_second"], true);
    (["miss_distance"; "kilometers"], true);
    (["orbiting_body"], false) ].

(** The strings found at the numeric fields of [v]. *)
Definition strings_at (v : value) (fields : list (list string * bool))
  : list string :=
  flat_map (fun f : list string * bool =>
              if snd f then
                match lookup_path v (fst f) with
                | Some (VStr s) => [s]
                | _ => []
                end
              else [])
           fields.

(** The strings [float] is applied to when the fields of a row are read. *)
Definition float_strings (obj approach : value) : list string :=
  (strings_at obj object_fields ++ strings_at approach approach_fields)%list.

(** Reading one field with the program's subscripts: each key of the path in
    turn, then the coercion if the field is numeric. *)
Definition read_field (v : value) (f : list string * bool) : result unit :=
  x ← foldl (fun r k => r ≫= fun y => getitem y k) (Ok v) (fst f);
  if snd f then py_float x;; Ok tt else Ok tt.

Definition field_reads (obj approach : value) : list (result unit) :=
  map (read_field obj) object_fields ++ map (read_field approach) approach_fields.

(** The exception of the first read that raises, if any. *)
Fixpoint first_raise (l : list (result unit)) : option exn :=
  match l with
  | [] => None
  | Ok _ :: l' => first_raise l'
  | Raise e :: _ => Some e
  end.

(** ** The loop without the clock

    The only effect inside the loop is the clock reading that ends each row,
    so the loop is a pure pass over the objects followed by the stamping. *)

(** The dict literal up to its last entry. *)
Definition record_fields (obj approach : value) : result (string -> record) :=
  v_id ← getitem obj "neo_reference_id";
  v_name ← getitem obj "name";
  v_mag ← getitem obj "absolute_magnitude_h" ≫= py_float;
  v_dmin ← (x ← getitem obj "estimated_diameter";
            y ← getitem x "kilometers";
            z ← getitem y "estimated_diameter_min";
            py_float z);
  v_dmax ← (x ← getitem obj "estimated_diameter";
            y ← getitem x "kilometers";
            z ← getitem y "estimated_diameter_max";
            py_float z);
  v_haz ← getitem obj "is_potentially_hazardous_asteroid";
  v_date ← getitem approach "close_approach_date";
  v_vel ← (x ← getitem approach "relative_velocity";
           y ← getitem x "kilometers_per_second";
           py_float y);
  v_miss ← (x ← getitem approach "miss_distance";
            y ← getitem x "kilometers";
            py_float y);
  v_body ← getitem approach "orbiting_body";
  Ok (fun stamp =>
        {| asteroid_id := v_id;
           name := v_name;
           absolute_magnitude_h := v_mag;
           estimated_diameter_min_km := v_dmin;
           estimated_diameter_max_km := v_dmax;
           is_potentially_hazardous := v_haz;
           close_approach_date := v_date;
           relative_velocity_km_s := v_vel;
           miss_distance_km := v_miss;
           orbiting_body := v_body;
           ingestion_timestamp := stamp |}).

(** One turn of the loop: an error, a skip, or a row awaiting its stamp. *)
Definition flatten_object (obj : value) : result (option (string -> record)) :=
  cad ← getitem obj "close_approach_data";
  if negb (truthy cad) then Ok None
  else
    approach ← getitem_index cad 0;
    mk ← record_fields obj approach;
    Ok (Some mk).

(** The rows of a whole pass; [n] is the next clock reading. *)
Fixpoint flatten_all (E : env) (n : nat) (neos : list value) : result (list record) :=
  match neos with
  | [] => Ok []
  | obj :: rest =>
      match flatten_object obj with
      | Raise e => Raise e
      | Ok None => flatten_all E n rest
      | Ok (Some mk) =>
          match flatten_all E (S n) rest with
          | Ok rs => Ok (mk (isoformat (utcnow E n)) :: rs)
          | Raise e => Raise e
          end
      end
  end.

(** ** Sample data *)

Definition dict (l : list (string * value)) : value := VDict (list_to_map l).

(** The binary64 values of the literals 0.3, 0.7, 12.4, 19.3 and 450000.0. *)
Definition f_0_3 : float := S754_finite false 5404319552844595 (-54).
Definition f_0_7 : float := S754_finite false 6305039478318694 (-53).
Definition f_12_4 : float := S754_finite false 6980579422424269 (-49).
Definition f_19_3 : float := S754_finite false 5432467050515661 (-48).
Definition f_450000 : float := S754_finite false 7730941132800000 (-34).

Definition example_approach : value :=
  dict [ ("close_approach_date", VStr "2024-05-01");
         ("relative_velocity", dict [("kilometers_per_second", VStr "12.4")]);
         ("miss_distance", dict [("kilometers", VStr "450000")]);
         ("orbiting_body", VStr "Earth") ].

Definition example_object : value :=
  dict [ ("neo_reference_id", VStr "2440012");
         ("name", VStr "12 Foo");
         ("absolute_magnitude_h", VStr "19.3");
         ("estimated_diameter",
           dict [("kilometers",
                   dict [ ("estimated_diameter_min", VFloat f_0_3);
                          ("estimated_diameter_max", VFloat f_0_7) ])]);
         ("is_potentially_hazardous_asteroid", VBool false);
         ("close_approach_data", VList [example_approach]) ].

Definition payload_of (day_key : string) (objs : list value) : value :=
  dict [("near_earth_objects", dict [(day_key, VList objs)])].

(** The payload of the end-to-end example of the specification. *)
Definition example_payload : value := payload_of "2024-05-01" [example_object].

Definition example_date : date := {| year := 2024; month := 5; day := 1 |}.

(** A clock that advances by one microsecond between two readings. *)
Definition example_clock (i : nat) : datetime :=
  {| dt_date := example_date; hour := 12; minute := 0; second := 0;
     microsecond := N.of_nat i |}.

Definition world (key : option string) (payload : value) (errors : list value) : env :=
  {| NASA_API_KEY := key;
     BUCKET_NAME := Some "neo-raw";
     BQ_PROJECT := Some "neo-project";
     utcnow := example_clock;
     requests_get := fun _ => Ok {| status_code := 200; json := Ok payload |};
     upload_from_string := fun _ _ _ _ => Ok tt;
     insert_rows_json := fun _ _ _ => Ok errors |}.

(** A world in which the feed answers with [status], the storage write
    gives [upload] and the insert call gives [insert]. *)
Definition faulty_world (status : Z) (upload : result unit)
    (insert : result (list value)) (payload : value) : env :=
  {| NASA_API_KEY := Some "DEMO_KEY";
     BUCKET_NAME := Some "neo-raw";
     BQ_PROJECT := Some "neo-project";
     utcnow := example_clock;
     requests_get := fun _ => Ok {| status_code := status; json := Ok payload |};
     upload_from_string := fun _ _ _ _ => upload;
     insert_rows_json := fun _ _ _ => insert |}.

Definition example_env : env := world (Some "DEMO_KEY") example_payload [].

Definition start : state := {| clock_reads := 0; trace := [] |}.

(** An object with an empty close-approach list and nothing else. *)
Definition bare_object : value := dict [("close_approach_data", VList [])].

(** The example object without its ["name"]. *)
Definition nameless_object : value :=
  match example_object with
  | VDict d => VDict (delete "name" d)
  | v => v
  end.

(** The example object with a magnitude that is no number. *)
Definition unreadable_object : value :=
  match example_object with
  | VDict d => VDict (<["absolute_magnitude_h" := VStr "bright"]> d)
  | v => v
  end.

(** The same object without its hazard flag. *)
Definition unreadable_unflagged_object : value :=
  match unreadable_object with
  | VDict d => VDict (delete "is_potentially_hazardous_asteroid" d)
  | v => v
  end.

(** One row-level error as the insert API reports it. *)
Definition row_error : value :=
  dict [("index", VInt 0); ("errors", VList [dict [("reason", VStr "invalid")]])].

Definition example_record (stamp : string) : record :=
  {| asteroid_id := VStr "2440012";
     name := VStr "12 Foo";
     absolute_magnitude_h := f_19_3;
     estimated_diameter_min_km := f_0_3;
     estimated_diameter_max_km := f_0_7;
     is_potentially_hazardous := VBool false;
     close_approach_date := VStr "2024-05-01";
     relative_velocity_km_s := f_12_4;
     miss_distance_km := f_450000;
     orbiting_body := VStr "Earth";
     ingestion_timestamp := stamp |}.

(** * Properties *)

#[local] Open Scope list_scope.

(** ** The float model on the literals of the example *)

Lemma float_literals :
  float_of_string "0.3" = Ok f_0_3
  ∧ float_of_string "0.7" = Ok f_0_7
  ∧ float_of_string "12.4" = Ok f_12_4
  ∧ float_of_string "19.3" = Ok f_19_3
  ∧ float_of_string "450000" = Ok f_450000
  ∧ float_of_string "450000.0" = Ok f_450000
  ∧ float_of_string "abc" = Raise ValueError
  ∧ float_of_int (2 ^ 1024) = Raise OverflowError.
Proof. repeat split; vm_compute; reflexivity. Qed.

(** Tabs, line ends and spaces around a number are dropped; the separators
    28 to 31 are not, before or after the number. *)
Lemma float_whitespace :
  float_of_string (String (ascii_of_nat 9) (String (ascii_of_nat 10) " 19.3 "))
    = Ok f_19_3
  ∧ float_of_string (String (ascii_of_nat 28) "19.3") = Raise ValueError
  ∧ float_of_string ("450000" ++ String (ascii_of_nat 31) "")%string
    = Raise ValueError
  ∧ float_of_string (String (ascii_of_nat 160) "19.3") = Raise ValueError
  ∧ ascii_only (String (ascii_of_nat 160) "19.3") = false
  ∧ ascii_only (String (ascii_of_nat 28) "19.3") = true.
Proof. repeat split; vm_compute; reflexivity. Qed.

(** *** The strings [float] accepts *)

Ltac by_char c :=
  unfold is_ascii; destruct c as [[] [] [] [] [] [] [] []];
  vm_compute; intros; congruence.

Lemma is_space_ascii c : is_space c = true → is_ascii c.
Proof. by_char c. Qed.

Lemma is_digit_ascii c : is_digit c = true → is_ascii c.
Proof. by_char c. Qed.

Lemma to_lower_ascii c : is_ascii (to_lower c) → is_ascii c.
Proof. by_char c. Qed.

Lemma Forall_rev_ascii l : Forall is_ascii (rev l) → Forall is_ascii l.
Proof. intros H. rewrite <- (rev_involutive l). by apply List.Forall_rev. Qed.

Lemma drop_spaces_ascii l : Forall is_ascii (drop_spaces l) → Forall is_ascii l.
Proof.
  induction l as [|c l IH]; [done|]. cbn [drop_spaces].
  destruct (is_space c) eqn:Hc; [|done].
  intros H. constructor; [by apply is_space_ascii|by apply IH].
Qed.

Lemma strip_ascii l : Forall is_ascii (strip l) → Forall is_ascii l.
Proof.
  unfold strip. intros H.
  apply drop_spaces_ascii, Forall_rev_ascii, drop_spaces_ascii, Forall_rev_ascii, H.
Qed.

Lemma drop_underscores_ascii l :
  ∀ b l1, drop_underscores b l = Some l1 → Forall is_ascii l1 → Forall is_ascii l.
Proof.
  induction l as [|c l IH]; intros b l1; [done|]. cbn [drop_underscores].
  destruct (Ascii.eqb c "_"%char) eqn:Hc.
  - apply Ascii.eqb_eq in Hc as ->.
    destruct l as [|d l]; [done|].
    destruct (b && is_digit d); [|done].
    intros H1 H2. constructor; [reflexivity|by eapply IH].
  - destruct (drop_underscores (is_digit c) l) as [l'|] eqn:Hl; [|done].
    intros [= <-] H. inversion H; subst. constructor; [done|by eapply IH].
Qed.

Lemma read_sign_ascii l neg l2 :
  read_sign l = (neg, l2) → Forall is_ascii l2 → Forall is_ascii l.
Proof.
  destruct l as [|c l]; cbn [read_sign]; [by intros [= _ <-]|].
  destruct (Ascii.eqb c "-"%char) eqn:H1.
  { apply Ascii.eqb_eq in H1 as ->. intros [= _ <-] H. by constructor. }
  destruct (Ascii.eqb c "+"%char) eqn:H2.
  { apply Ascii.eqb_eq in H2 as ->. intros [= _ <-] H. by constructor. }
  by intros [= _ <-].
Qed.

Lemma read_digits_ascii l :
  ∀ acc n a n' rest, read_digits acc n l = (a, n', rest) →
    Forall is_ascii rest → Forall is_ascii l.
Proof.
  induction l as [|c l IH]; intros acc n a n' rest; cbn [read_digits].
  { by intros [= _ _ <-]. }
  destruct (is_digit c) eqn:Hc; [|by intros [= _ _ <-]].
  intros H1 H2. constructor; [by apply is_digit_ascii|by eapply IH].
Qed.

Lemma read_exponent_ascii l e : read_exponent l = Some e → Forall is_ascii l.
Proof.
  destruct l as [|c l]; [done|]. cbn [read_exponent].
  destruct (Ascii.eqb (to_lower c) "e"%char) eqn:Hc; [|done].
  apply Ascii.eqb_eq in Hc.
  destruct (read_sign l) as [neg l1] eqn:Hs.
  destruct (read_digits 0 0 l1) as [[x n] rest] eqn:Hd.
  destruct rest; [|done]. intros _.
  constructor; [apply to_lower_ascii; by rewrite Hc|].
  eapply read_sign_ascii; [exact Hs|]. by eapply read_digits_ascii.
Qed.

Lemma read_decimal_ascii neg l f : read_decimal neg l = Some f → Forall is_ascii l.
Proof.
  unfold read_decimal.
  destruct (read_digits 0 0 l) as [[ip ni] l1] eqn:Hi.
  intros H. eapply read_digits_ascii; [exact Hi|].
  destruct l1 as [|c l1]; [done|].
  destruct (Ascii.eqb c "."%char) eqn:Hc.
  - apply Ascii.eqb_eq in Hc as ->.
    destruct (read_digits ip 0 l1) as [[m nf] l2] eqn:Hf.
    destruct (0 <? ni + nf); [|done].
    destruct (read_exponent l2) as [e|] eqn:He; [|done].
    constructor; [reflexivity|].
    eapply read_digits_ascii; [exact Hf|]. by eapply read_exponent_ascii.
  - destruct (0 <? ni + 0); [|done].
    destruct (read_exponent (c :: l1)) as [e|] eqn:He; [|done].
    by eapply read_exponent_ascii.
Qed.

Lemma lower_word_ascii l (w : string) :
  String.eqb (string_of_list_ascii (map to_lower l)) w = true →
  Forall is_ascii (list_ascii_of_string w) → Forall is_ascii l.
Proof.
  intros H Hw. apply String.eqb_eq in H. subst w.
  rewrite list_ascii_of_string_of_list_ascii in Hw.
  induction l as [|c l IH]; [done|]. inversion Hw; subst.
  constructor; [by apply to_lower_ascii|by apply IH].
Qed.

Lemma float_of_chars_ascii l f : float_of_chars l = Some f → Forall is_ascii l.
Proof.
  unfold float_of_chars.
  destruct (drop_underscores false (strip l)) as [l1|] eqn:Hu; [|done].
  cbn [mbind option_bind].
  destruct (read_sign l1) as [neg l2] eqn:Hs.
  intros H. apply strip_ascii. eapply drop_underscores_ascii; [exact Hu|].
  eapply read_sign_ascii; [exact Hs|].
  destruct (String.eqb _ "inf") eqn:H1.
  { eapply lower_word_ascii; [exact H1|]. by repeat constructor. }
  destruct (String.eqb _ "infinity") eqn:H2.
  { eapply lower_word_ascii; [exact H2|]. by repeat constructor. }
  destruct (String.eqb _ "nan") eqn:H3.
  { eapply lower_word_ascii; [exact H3|]. by repeat constructor. }
  exact (read_decimal_ascii _ _ _ H).
Qed.

(** The model accepts ASCII strings only: what it accepts lies in the domain
    on which it is exact. *)
Lemma float_of_string_accepts_ascii s f :
  float_of_string s = Ok f → ascii_only s = true.
Proof.
  unfold float_of_string, ascii_only.
  destruct (float_of_chars _) as [f'|] eqn:H; [|done]. intros _.
  apply float_of_chars_ascii in H. apply forallb_forall.
  intros c Hc. apply (proj1 (List.Forall_forall _ _) H c Hc).
Qed.

(** ** The monad and the state *)

Lemma tick_0 s : tick 0 s = s.
Proof. destruct s; unfold tick; simpl. f_equal. lia. Qed.

Lemma tick_tick a b s : tick a (tick b s) = tick (b + a) s.
Proof. unfold tick; simpl. f_equal. lia. Qed.


Lemma after_after s evs evs' : after (after s evs) evs' = after s (evs ++ evs').
Proof. unfold after; simpl. by rewrite app_assoc. Qed.


Lemma bind_lift {A B} (r : result A) (f : A → M B) s :
  (lift r ≫= f) s = match r with Ok a => f a s | Raise e => (Raise e, s) end.
Proof. by destruct r. Qed.

Lemma bind_M {A B} (m : M A) (f : A → M B) s :
  (m ≫= f) s =
    match m s with
    | (Ok a, s') => f a s'
    | (Raise e, s') => (Raise e, s')
    end.
Proof. reflexivity. Qed.

Ltac case_result :=
  match goal with
  | |- context [match ?r with Ok _ => _ | Raise _ => _ end] =>
      lazymatch r with
      | context [match _ with Ok _ => _ | Raise _ => _ end] => fail
      | _ => destruct r eqn:?
      end
  end.

Lemma build_record_pure E obj a s :
  build_record E obj a s =
    match record_fields obj a with
    | Ok mk => (Ok (mk (isoformat (utcnow E (clock_reads s)))), tick 1 s)
    | Raise e => (Raise e, s)
    end.
Proof.
  unfold build_record, record_fields.
  unfold mbind, M_bind, result_bind, lift, mret, M_ret, now.
  repeat (case_result; simpl; try reflexivity).
Qed.

Lemma transform_loop_step E obj rest acc s :
  transform_loop E (obj :: rest) acc s =
    match flatten_object obj with
    | Raise e => (Raise e, s)
    | Ok None => transform_loop E rest acc s
    | Ok (Some mk) =>
        transform_loop E rest
          (acc ++ [mk (isoformat (utcnow E (clock_reads s)))]) (tick 1 s)
    end.
Proof.
  cbn [transform_loop]. unfold flatten_object.
  rewrite bind_lift.
  destruct (getitem obj "close_approach_data") as [cad|e];
    cbn [mbind result_bind]; [|reflexivity].
  destruct (negb (truthy cad)); [reflexivity|].
  rewrite bind_lift.
  destruct (getitem_index cad 0) as [a|e];
    cbn [mbind result_bind]; [|reflexivity].
  rewrite bind_M, build_record_pure.
  destruct (record_fields obj a); reflexivity.
Qed.

Lemma transform_loop_app E pre : ∀ post acc s,
  transform_loop E (pre ++ post) acc s =
    match transform_loop E pre acc s with
    | (Ok recs, s1) => transform_loop E post recs s1
    | (Raise e, s1) => (Raise e, s1)
    end.
Proof.
  induction pre as [|obj pre IH]; intros post acc s; [done|].
  rewrite <- app_comm_cons, !transform_loop_step.
  destruct (flatten_object obj) as [[mk|]|e]; [apply IH|apply IH|reflexivity].
Qed.

Lemma transform_loop_flatten E neos : ∀ acc s,
  match flatten_all E (clock_reads s) neos with
  | Ok rs => transform_loop E neos acc s = (Ok (acc ++ rs), tick (length rs) s)
  | Raise e => ∃ k, transform_loop E neos acc s = (Raise e, tick k s)
  end.
Proof.
  induction neos as [|obj rest IH]; intros acc s.
  - cbn. by rewrite app_nil_r, tick_0.
  - rewrite transform_loop_step. cbn [flatten_all].
    destruct (flatten_object obj) as [[mk|]|e].
    + specialize (IH (acc ++ [mk (isoformat (utcnow E (clock_reads s)))]) (tick 1 s)).
      replace (clock_reads (tick 1 s)) with (S (clock_reads s)) in IH
        by (unfold tick; simpl; lia).
      destruct (flatten_all E (S (clock_reads s)) rest) as [rs|e].
      * rewrite IH, <- app_assoc, tick_tick. reflexivity.
      * destruct IH as [k IH]. exists (1 + k)%nat. by rewrite IH, tick_tick.
    + apply IH.
    + exists 0%nat. by rewrite tick_0.
Qed.

Lemma transform_records_unfold E data d s :
  transform_records E data d s =
    match date_objects data d with
    | Raise e => (Raise e, s)
    | Ok neos =>
        match transform_loop E neos [] s with
        | (Ok recs, s') =>
            (Ok recs, after s' [Print [VStr ("Transformed " ++ str_len recs ++ " records")%string]])
        | (Raise e, s') => (Raise e, s')
        end
    end.
Proof.
  unfold transform_records. rewrite bind_lift.
  destruct (date_objects data d) as [neos|e]; [|done].
  unfold mbind, M_bind.
  by destruct (transform_loop E neos [] s) as [[recs|e] s'].
Qed.

(** ** What one turn of the loop yields *)

Lemma getitem_member v k x : getitem v k = Ok x ↔ member v k = Some x.
Proof.
  destruct v; simpl; try (split; discriminate).
  destruct (d !! k); split; congruence.
Qed.


Lemma record_fields_inv obj a mk :
  record_fields obj a = Ok mk →
  ∃ v_id v_name x_mag x_d x_km x_dmin x_dmax v_haz v_date x_rv x_vel x_md x_miss v_body
    f_mag f_dmin f_dmax f_vel f_miss,
    getitem obj "neo_reference_id" = Ok v_id
    ∧ getitem obj "name" = Ok v_name
    ∧ getitem obj "absolute_magnitude_h" = Ok x_mag ∧ py_float x_mag = Ok f_mag
    ∧ getitem obj "estimated_diameter" = Ok x_d ∧ getitem x_d "kilometers" = Ok x_km
    ∧ getitem x_km "estimated_diameter_min" = Ok x_dmin ∧ py_float x_dmin = Ok f_dmin
    ∧ getitem x_km "estimated_diameter_max" = Ok x_dmax ∧ py_float x_dmax = Ok f_dmax
    ∧ getitem obj "is_potentially_hazardous_asteroid" = Ok v_haz
    ∧ getitem a "close_approach_date" = Ok v_date
    ∧ getitem a "relative_velocity" = Ok x_rv
    ∧ getitem x_rv "kilometers_per_second" = Ok x_vel ∧ py_float x_vel = Ok f_vel
    ∧ getitem a "miss_distance" = Ok x_md
    ∧ getitem x_md "kilometers" = Ok x_miss ∧ py_float x_miss = Ok f_miss
    ∧ getitem a "orbiting_body" = Ok v_body
    ∧ mk = (fun stamp =>
        {| asteroid_id := v_id;
           name := v_name;
           absolute_magnitude_h := f_mag;
           estimated_diameter_min_km := f_dmin;
           estimated_diameter_max_km := f_dmax;
           is_potentially_hazardous := v_haz;
           close_approach_date := v_date;
           relative_velocity_km_s := f_vel;
           miss_distance_km := f_miss;
           orbiting_body := v_body;
           ingestion_timestamp := stamp |}).
Proof.
  unfold record_fields, mbind, result_bind.
  intros H.
  repeat match type of H with
  | context [match ?r with Ok _ => _ | Raise _ => _ end] =>
      lazymatch r with
      | context [match _ with Ok _ => _ | Raise _ => _ end] => fail
      | _ => destruct r eqn:?; [|discriminate H]
      end
  end.
  injection H as <-.
  repeat eexists; eassumption.
Qed.

Lemma lookup_path_nil v : lookup_path v [] = Some v.
Proof. reflexivity. Qed.

Lemma lookup_path_cons v k path :
  lookup_path v (k :: path) = member v k ≫= fun x => lookup_path x path.
Proof.
  unfold lookup_path. cbn [foldl mbind option_bind].
  destruct (member v k) as [x|]; [reflexivity|].
  induction path as [|k' path IH]; [reflexivity|apply IH].
Qed.

Lemma number_at_inv v path f :
  number_at v path = Some f ↔ ∃ x, lookup_path v path = Some x ∧ py_float x = Ok f.
Proof.
  unfold number_at. destruct (lookup_path v path) as [x|]; cbn.
  - destruct (py_float x) eqn:Hx; split.
    + intros [= ->]. eauto.
    + intros (y & [= <-] & Hy). congruence.
    + discriminate.
    + intros (y & [= <-] & Hy). congruence.
  - split; [discriminate|]. intros (y & Hy & _). discriminate.
Qed.

Lemma first_approach_inv obj a :
  first_approach obj = Some a ↔
  ∃ rest, member obj "close_approach_data" = Some (VList (a :: rest)).
Proof.
  unfold first_approach.
  destruct (member obj "close_approach_data") as [[| | | | |[|a' l]|]|];
    (split; [intros H|intros (rest & H)]); try discriminate H.
  - injection H as ->. eauto.
  - by injection H as -> _.
Qed.

(** A row comes out of a turn only for an object with a first approach
    entry, and it is the flattening of that object. *)
Lemma flatten_object_Some obj mk :
  flatten_object obj = Ok (Some mk) →
  has_approach obj = true
  ∧ ∀ stamp, flattens obj (mk stamp) ∧ ingestion_timestamp (mk stamp) = stamp.
Proof.
  unfold flatten_object. intros H.
  destruct (getitem obj "close_approach_data") as [cad|] eqn:Hcad; [|discriminate].
  cbn [mbind result_bind] in H.
  destruct (truthy cad) eqn:Ht; [|discriminate]. cbn [negb] in H.
  destruct (getitem_index cad 0) as [a|] eqn:Ha; [|discriminate].
  cbn [mbind result_bind] in H.
  destruct (record_fields obj a) as [mk'|] eqn:Hmk; [|discriminate].
  injection H as ->.
  apply record_fields_inv in Hmk
    as (v_id & v_name & x_mag & x_d & x_km & x_dmin & x_dmax & v_haz & v_date
        & x_rv & x_vel & x_md & x_miss & v_body & f_mag & f_dmin & f_dmax & f_vel
        & f_miss & H1 & H2 & H3 & H3' & H4 & H5 & H6 & H6' & H7 & H7' & H8 & H9
        & H10 & H11 & H11' & H12 & H13 & H13' & H14 & ->).
  assert (Hfirst : first_approach obj = Some a).
  { apply getitem_member in Hcad. apply first_approach_inv.
    destruct cad as [| | | |s|l|]; try discriminate.
    - cbn in Ha. destruct (get 0 s); [|discriminate]. injection Ha as <-.
      discriminate.
    - destruct l as [|a' l]; [discriminate|]. injection Ha as ->. eauto. }
  split; [unfold has_approach; by rewrite Hfirst|].
  intros stamp. split; [|reflexivity].
  apply getitem_member in H1, H2, H3, H4, H5, H6, H7, H8, H9, H10, H11, H12, H13, H14.
  exists a. cbn [asteroid_id name absolute_magnitude_h estimated_diameter_min_km
    estimated_diameter_max_km is_potentially_hazardous close_approach_date
    relative_velocity_km_s miss_distance_km orbiting_body].
  repeat split; try assumption;
    try (apply number_at_inv; eexists; split; [|eassumption]);
    repeat first
      [ rewrite lookup_path_nil
      | rewrite lookup_path_cons
      | match goal with
        | H : member _ _ = Some _ |- _ => rewrite H; cbn [mbind option_bind]
        end ];
    reflexivity.
Qed.

Lemma flatten_object_None obj :
  flatten_object obj = Ok None → has_approach obj = false.
Proof.
  unfold flatten_object, has_approach. intros H.
  destruct (first_approach obj) as [a|] eqn:Hfirst; [|reflexivity].
  apply first_approach_inv in Hfirst as (rest & Hcad).
  apply getitem_member in Hcad. rewrite Hcad in H. cbn in H.
  destruct (record_fields obj a); discriminate.
Qed.

Lemma no_approach_flatten_object obj :
  no_approach obj → flatten_object obj = Ok None.
Proof.
  unfold no_approach, flatten_object. intros H.
  apply getitem_member in H. by rewrite H.
Qed.

Lemma no_approach_has_approach obj : no_approach obj → has_approach obj = false.
Proof.
  unfold no_approach, has_approach, first_approach. by intros ->.
Qed.



(** ** A whole pass *)

Lemma flatten_all_Ok E neos : ∀ n rs,
  flatten_all E n neos = Ok rs →
  Forall2 flattens (List.filter has_approach neos) rs
  ∧ map ingestion_timestamp rs
      = map (fun i => isoformat (utcnow E i)) (seq n (length rs))
  ∧ (length rs ≤ length neos)%nat.
Proof.
  induction neos as [|obj rest IH]; intros n rs H; cbn [flatten_all] in H.
  - injection H as <-. repeat split; [constructor|cbn; lia].
  - destruct (flatten_object obj) as [[mk|]|e] eqn:Hobj; [| |discriminate].
    + destruct (flatten_all E (S n) rest) as [rs'|] eqn:Hrest; [|discriminate].
      injection H as <-.
      apply flatten_object_Some in Hobj as [Hhas Hmk].
      destruct (IH _ _ Hrest) as (IH1 & IH2 & IH3).
      cbn [List.filter]. rewrite Hhas.
      repeat split.
      * constructor; [apply Hmk|exact IH1].
      * cbn [length seq map]. f_equal; [apply Hmk|exact IH2].
      * cbn [length]. lia.
    + apply flatten_object_None in Hobj. cbn [List.filter]. rewrite Hobj.
      destruct (IH _ _ H) as (IH1 & IH2 & IH3).
      repeat split; [exact IH1|exact IH2|cbn [length]; lia].
Qed.


Lemma transform_loop_Ok E neos acc s recs s' :
  transform_loop E neos acc s = (Ok recs, s') →
  ∃ rs, flatten_all E (clock_reads s) neos = Ok rs
      ∧ recs = acc ++ rs ∧ s' = tick (length rs) s.
Proof.
  intros H. pose proof (transform_loop_flatten E neos acc s) as Hf.
  destruct (flatten_all E (clock_reads s) neos) as [rs|e].
  - rewrite Hf in H. injection H as <- <-. eauto.
  - destruct Hf as [k Hf]. rewrite Hf in H. discriminate.
Qed.

Lemma transform_records_Ok E data d s recs s' :
  transform_records E data d s = (Ok recs, s') →
  ∃ neos, date_objects data d = Ok neos
    ∧ flatten_all E (clock_reads s) neos = Ok recs
    ∧ s' = after (tick (length recs) s)
             [Print [VStr ("Transformed " ++ str_len recs ++ " records")%string]].
Proof.
  rewrite transform_records_unfold. intros H.
  destruct (date_objects data d) as [neos|]; [|discriminate].
  destruct (transform_loop E neos [] s) as [[rs|] s1] eqn:Hloop; [|discriminate].
  injection H as -> <-.
  apply transform_loop_Ok in Hloop as (rs & Hrs & -> & ->). eauto.
Qed.

(** ** Missing fields *)

Lemma first_raise_Exists (l : list (result unit)) :
  Exists (fun r => ∃ k, r = Raise (KeyError k)) l → ∃ e, first_raise l = Some e.
Proof.
  induction 1 as [r l (k & ->)|r l _ IH]; [by exists (KeyError k)|].
  destruct r as [[]|e]; [exact IH|by exists e].
Qed.

Lemma record_fields_first_raise obj a :
  match first_raise (field_reads obj a) with
  | Some e => record_fields obj a = Raise e
  | None => is_Ok (record_fields obj a) = true
  end.
Proof.
  unfold field_reads, record_fields, read_field, object_fields, approach_fields.
  cbn [map app fst snd foldl].
  unfold mbind, result_bind.
  repeat (case_result; cbn [first_raise is_Ok]; try reflexivity).
Qed.

(** ** The Transformer *)



(** C2.  When the mapping under "near_earth_objects" has no entry for the
    queried date, the Transformer returns the empty sequence and raises
    nothing; it only prints its count line. *)
Theorem transform_records_date_absent E data d s neo :
  member data "near_earth_objects" = Some (VDict neo) →
  neo !! str_date d = None →
  transform_records E data d s
    = (Ok [], after s [Print [VStr "Transformed 0 records"]]).
Proof.
  intros Hneo Hd. rewrite transform_records_unfold. unfold date_objects.
  apply getitem_member in Hneo. rewrite Hneo.
  cbn [mbind result_bind dict_get]. rewrite Hd. reflexivity.
Qed.

Lemma transform_records_date_absent_witness :
  member (payload_of "2024-04-30" [example_object]) "near_earth_objects"
    = Some (VDict {["2024-04-30" := VList [example_object]]})
  ∧ ({["2024-04-30" := VList [example_object]]} : gmap string value)
      !! str_date example_date = None
  ∧ transform_records example_env (payload_of "2024-04-30" [example_object])
      example_date start
    = (Ok [], after start [Print [VStr "Transformed 0 records"]]).
Proof.
  assert (H1 : member (payload_of "2024-04-30" [example_object]) "near_earth_objects"
               = Some (VDict {["2024-04-30" := VList [example_object]]}))
    by (vm_compute; reflexivity).
  assert (H2 : ({["2024-04-30" := VList [example_object]]} : gmap string value)
                 !! str_date example_date = None)
    by (vm_compute; reflexivity).
  split; [exact H1|]. split; [exact H2|].
  exact (transform_records_date_absent example_env _ example_date start _ H1 H2).
Defined.

(** C3.  Whenever the Transformer returns, its rows are the flattenings of
    exactly the objects that have a close-approach entry, in the order of
    the objects under the date key, so there are at most as many rows as
    objects.  An object whose close-approach list is empty is skipped without
    any other effect: with or without it the Transformer gives the same
    outcome and leaves the same state. *)
Theorem transform_records_skips_in_order :
  (∀ E data d s records s',
     transform_records E data d s = (Ok records, s') →
     ∃ neos,
       date_objects data d = Ok neos
       ∧ Forall2 flattens (List.filter has_approach neos) records
       ∧ (length records ≤ length neos)%nat)
  ∧ (∀ obj, no_approach obj → has_approach obj = false)
  ∧ (∀ E data data' d s before obj rest,
       date_objects data d = Ok (before ++ obj :: rest) →
       date_objects data' d = Ok (before ++ rest) →
       no_approach obj →
       transform_records E data d s = transform_records E data' d s).
Proof.
  split; [|split].
  - intros E data d s records s' H.
    apply transform_records_Ok in H as (neos & Hneos & Hall & _).
    exists neos. split; [exact Hneos|].
    destruct (flatten_all_Ok _ _ _ _ Hall) as (H1 & _ & H3). by split.
  - exact no_approach_has_approach.
  - intros E data data' d s before obj rest Hd Hd' Hobj.
    rewrite !transform_records_unfold, Hd, Hd', !transform_loop_app.
    destruct (transform_loop E before [] s) as [[recs|e] s1]; [|reflexivity].
    by rewrite transform_loop_step, (no_approach_flatten_object _ Hobj).
Qed.

Lemma transform_records_skips_in_order_witness :
  (∃ neos,
     date_objects (payload_of "2024-05-01" [bare_object; example_object]) example_date
       = Ok neos
     ∧ Forall2 flattens (List.filter has_approach neos)
         [example_record "2024-05-01T12:00:00"]
     ∧ (length [example_record "2024-05-01T12:00:00"] ≤ length neos)%nat)
  ∧ transform_records example_env
      (payload_of "2024-05-01" [bare_object; example_object]) example_date start
    = transform_records example_env example_payload example_date start.
Proof.
  split.
  - apply (proj1 transform_records_skips_in_order example_env _ example_date start _
             (after (tick 1 start) [Print [VStr "Transformed 1 records"]])).
    vm_compute. reflexivity.
  - apply (proj2 (proj2 transform_records_skips_in_order) example_env _ _
             example_date start [] bare_object [example_object]);
      vm_compute; reflexivity.
Defined.

(** Against C9 as stated: a batch of two rows whose ingestion times differ.
    The clock is read once per row, and here it advances by a microsecond
    between the two readings. *)
Lemma ingestion_timestamps_differ :
  ∃ r1 r2 s',
    transform_records example_env
      (payload_of "2024-05-01" [example_object; example_object]) example_date start
      = (Ok [r1; r2], s')
    ∧ ingestion_timestamp r1 = "2024-05-01T12:00:00"
    ∧ ingestion_timestamp r2 = "2024-05-01T12:00:00.000001"
    ∧ ingestion_timestamp r1 ≠ ingestion_timestamp r2.
Proof.
  eexists _, _, _. split; [vm_compute; reflexivity|].
  split; [reflexivity|]. split; [reflexivity|]. discriminate.
Qed.

(** C9, amended.  Each row is stamped with its own reading of the UTC clock,
    taken when the row is built: the k-th row of a batch carries the k-th
    reading made by the invocation, and the invocation makes as many
    readings as it returns rows. *)
Theorem ingestion_timestamps_follow_clock E data d s records s' :
  transform_records E data d s = (Ok records, s') →
  map ingestion_timestamp records
    = map (fun i => isoformat (utcnow E i)) (seq (clock_reads s) (length records))
  ∧ clock_reads s' = (clock_reads s + length records)%nat.
Proof.
  intros H. apply transform_records_Ok in H as (neos & _ & Hall & ->).
  split; [|reflexivity]. apply (flatten_all_Ok _ _ _ _ Hall).
Qed.

Lemma ingestion_timestamps_follow_clock_witness :
  transform_records example_env example_payload example_date start
    = (Ok [example_record "2024-05-01T12:00:00"],
       after (tick 1 start) [Print [VStr "Transformed 1 records"]])
  ∧ map ingestion_timestamp [example_record "2024-05-01T12:00:00"]
      = map (fun i => isoformat (utcnow example_env i))
          (seq (clock_reads start) (length [example_record "2024-05-01T12:00:00"]))
  ∧ clock_reads (after (tick 1 start) [Print [VStr "Transformed 1 records"]])
      = (clock_reads start + length [example_record "2024-05-01T12:00:00"])%nat.
Proof.
  assert (H : transform_records example_env example_payload example_date start
              = (Ok [example_record "2024-05-01T12:00:00"],
                 after (tick 1 start) [Print [VStr "Transformed 1 records"]]))
    by (vm_compute; reflexivity).
  split; [exact H|].
  exact (ingestion_timestamps_follow_clock _ _ _ _ _ _ H).
Defined.

(** Against C10 as stated: an object that lacks every field of a row but
    has an empty close-approach list raises nothing, it is skipped. *)
Lemma bare_object_is_skipped :
  member bare_object "neo_reference_id" = None
  ∧ transform_records example_env (payload_of "2024-05-01" [bare_object])
      example_date start
    = (Ok [], after start [Print [VStr "Transformed 0 records"]]).
Proof. split; vm_compute; reflexivity. Qed.

(** C10, amended.  Only a missing date key defaults to the empty sequence.
    A payload mapping without "near_earth_objects" raises [KeyError].  For an
    object under the date key that the loop reaches (the objects before it
    were processed without error): a mapping without "close_approach_data"
    raises [KeyError]; an object with a first close-approach entry raises
    [KeyError] for a missing field of the row when the read of that field is
    the first one to fail, that is when every field before it in the dict
    literal is present and, if numeric, accepted by [float] (a read that
    fails earlier raises its own exception instead), and in any case, if some
    field of the row is missing, the Transformer raises: it neither builds
    the row nor skips the object; an object whose close-approach list is
    empty is skipped, whatever else it lacks. *)
Theorem missing_keys_raise :
  (∀ E m d s,
     m !! "near_earth_objects" = None →
     transform_records E (VDict m) d s = (Raise (KeyError "near_earth_objects"), s))
  ∧ (∀ E data d s before obj rest recs s1,
       date_objects data d = Ok (before ++ obj :: rest) →
       transform_loop E before [] s = (Ok recs, s1) →
       (∀ o, obj = VDict o → o !! "close_approach_data" = None →
          transform_records E data d s
            = (Raise (KeyError "close_approach_data"), s1))
       ∧ (∀ a k, first_approach obj = Some a →
            first_raise (field_reads obj a) = Some (KeyError k) →
            transform_records E data d s = (Raise (KeyError k), s1))
       ∧ (∀ a, first_approach obj = Some a →
            Exists (fun r => ∃ k, r = Raise (KeyError k)) (field_reads obj a) →
            ∃ e, transform_records E data d s = (Raise e, s1))
       ∧ (no_approach obj →
            transform_loop E (before ++ obj :: rest) [] s
              = transform_loop E rest recs s1)).
Proof.
  split.
  - intros E m d s Hm. rewrite transform_records_unfold.
    unfold date_objects. cbn [getitem]. by rewrite Hm.
  - intros E data d s before obj rest recs s1 Hd Hbefore.
    rewrite transform_records_unfold, Hd, transform_loop_app, Hbefore,
      transform_loop_step.
    split; [|split; [|split]].
    + intros o -> Ho. unfold flatten_object. cbn [getitem]. by rewrite Ho.
    + intros a k Ha Hk.
      apply first_approach_inv in Ha as (l & Ha). apply getitem_member in Ha.
      pose proof (record_fields_first_raise obj a) as Hf. rewrite Hk in Hf.
      unfold flatten_object. rewrite Ha. cbn. by rewrite Hf.
    + intros a Ha Hmissing.
      apply first_raise_Exists in Hmissing as [e He]. exists e.
      apply first_approach_inv in Ha as (l & Ha). apply getitem_member in Ha.
      pose proof (record_fields_first_raise obj a) as Hf. rewrite He in Hf.
      unfold flatten_object. rewrite Ha. cbn. by rewrite Hf.
    + intros Hobj. by rewrite (no_approach_flatten_object _ Hobj).
Qed.

Lemma missing_keys_raise_witness :
  (∅ : gmap string value) !! "near_earth_objects" = None
  ∧ transform_records example_env (VDict ∅) example_date start
      = (Raise (KeyError "near_earth_objects"), start)
  ∧ date_objects (payload_of "2024-05-01" [example_object; nameless_object])
      example_date = Ok ([example_object] ++ nameless_object :: [])
  ∧ first_approach nameless_object = Some example_approach
  ∧ first_raise (field_reads nameless_object example_approach)
      = Some (KeyError "name")
  ∧ transform_records example_env
      (payload_of "2024-05-01" [example_object; nameless_object]) example_date start
    = (Raise (KeyError "name"), tick 1 start)
  ∧ nth_error (field_reads unreadable_unflagged_object example_approach) 5
    = Some (Raise (KeyError "is_potentially_hazardous_asteroid"))
  ∧ first_raise (field_reads unreadable_unflagged_object example_approach)
    = Some ValueError
  ∧ ∃ e,
      transform_records example_env
        (payload_of "2024-05-01" [example_object; unreadable_unflagged_object])
        example_date start
      = (Raise e, tick 1 start).
Proof.
  split; [reflexivity|].
  split; [exact (proj1 missing_keys_raise example_env ∅ example_date start eq_refl)|].
  assert (H1 : date_objects (payload_of "2024-05-01" [example_object; nameless_object])
                 example_date = Ok ([example_object] ++ nameless_object :: []))
    by (vm_compute; reflexivity).
  assert (H2 : transform_loop example_env [example_object] [] start
               = (Ok [example_record "2024-05-01T12:00:00"], tick 1 start))
    by (vm_compute; reflexivity).
  assert (H3 : first_approach nameless_object = Some example_approach)
    by (vm_compute; reflexivity).
  assert (H4 : first_raise (field_reads nameless_object example_approach)
               = Some (KeyError "name"))
    by (vm_compute; reflexivity).
  split; [exact H1|]. split; [exact H3|]. split; [exact H4|].
  split.
  { exact (proj1 (proj2 (proj2 missing_keys_raise example_env _ example_date start
                           [example_object] nameless_object [] _ _ H1 H2))
             example_approach "name" H3 H4). }
  assert (H5 : date_objects
                 (payload_of "2024-05-01" [example_object; unreadable_unflagged_object])
                 example_date
               = Ok ([example_object] ++ unreadable_unflagged_object :: []))
    by (vm_compute; reflexivity).
  assert (H6 : first_approach unreadable_unflagged_object = Some example_approach)
    by (vm_compute; reflexivity).
  assert (H7 : nth_error (field_reads unreadable_unflagged_object example_approach) 5
               = Some (Raise (KeyError "is_potentially_hazardous_asteroid")))
    by (vm_compute; reflexivity).
  assert (H8 : Exists (fun r => ∃ k, r = Raise (KeyError k))
                 (field_reads unreadable_unflagged_object example_approach)).
  { apply Exists_exists. eexists. split; [|by eexists].
    apply list_elem_of_In. by eapply nth_error_In, H7. }
  split; [exact H7|]. split; [vm_compute; reflexivity|].
  exact (proj1 (proj2 (proj2 (proj2 missing_keys_raise example_env _ example_date
                                start [example_object] unreadable_unflagged_object []
                                _ _ H5 H2)))
           example_approach H6 H8).
Defined.

(** ** The steps of the entry point *)

Lemma fetch_nasa_data_unfold E s :
  fetch_nasa_data E s =
    let today := dt_date (utcnow E (clock_reads s)) in
    let s1 := after (tick 1 s) [Get (feed_url E today)] in
    match requests_get E (feed_url E today) with
    | Raise e => (Raise e, s1)
    | Ok resp =>
        match raise_for_status resp with
        | Raise e => (Raise e, s1)
        | Ok _ =>
            match json resp with
            | Raise e => (Raise e, s1)
            | Ok data => (Ok (data, today), s1)
            end
        end
    end.
Proof.
  unfold fetch_nasa_data, call, now, emit, lift, mbind, M_bind. cbv zeta.
  destruct (requests_get E _) as [resp|e]; [|reflexivity].
  destruct (raise_for_status resp); [|reflexivity].
  destruct (json resp); reflexivity.
Qed.

Lemma save_raw_to_gcs_unfold E data d s :
  save_raw_to_gcs E data d s =
    match upload_from_string E (BUCKET_NAME E) (blob_path d) (json_dumps data)
            "application/json" with
    | Raise e => (Raise e, after s [upload_of E data d])
    | Ok _ => (Ok tt, after s [upload_of E data d; saved_line E d])
    end.
Proof.
  unfold save_raw_to_gcs, call, print, emit, lift, mbind, M_bind. cbv zeta.
  destruct (upload_from_string E _ _ _ _); [|reflexivity].
  by rewrite after_after.
Qed.

Lemma load_to_bigquery_unfold E records s :
  load_to_bigquery E records s =
    match insert_rows_json E (BQ_PROJECT E) (table_id E) records with
    | Raise e => (Raise e, after s [insert_of E records])
    | Ok errors =>
        (Ok tt,
         after s
           [insert_of E records;
            if truthy (VList errors) then Print [VStr "Errors occurred:"; VList errors]
            else Print [VStr ("Inserted " ++ str_len records ++ " rows into "
                              ++ table_id E)%string]])
    end.
Proof.
  unfold load_to_bigquery, call, print, emit, lift, mbind, M_bind. cbv zeta.
  destruct (insert_rows_json E _ _ _) as [errors|e]; [|reflexivity].
  destruct (truthy (VList errors)); by rewrite after_after.
Qed.

Lemma etl_nasa_neo_unfold E s :
  etl_nasa_neo E s =
    if configured E then
      match fetch_nasa_data E (started s) with
      | (Raise e, s1) => (Raise e, s1)
      | (Ok (data, d), s1) =>
          match save_raw_to_gcs E data d s1 with
          | (Raise e, s2) => (Raise e, s2)
          | (Ok _, s2) =>
              match transform_records E data d s2 with
              | (Raise e, s3) => (Raise e, s3)
              | (Ok records, s3) =>
                  match records with
                  | [] => (Ok (success_response 0 d), s3)
                  | _ :: _ =>
                      match load_to_bigquery E records s3 with
                      | (Raise e, s4) => (Raise e, s4)
                      | (Ok _, s4) => (Ok (success_response (length records) d), s4)
                      end
                  end
              end
          end
      end
    else
      (Ok (Response2 "Missing required environment variables" 500),
       after s [Print [VStr "Starting NASA NEO ETL..."];
                Print [VStr "Missing required environment variables"]]).
Proof.
  unfold etl_nasa_neo, configured, started, print, emit.
  rewrite bind_M. cbv beta iota.
  destruct (truthy_opt (NASA_API_KEY E) && truthy_opt (BUCKET_NAME E)
            && truthy_opt (BQ_PROJECT E)); cbn [negb].
  - rewrite bind_M.
    destruct (fetch_nasa_data E _) as [[[data d]|e] s1]; [|reflexivity].
    rewrite bind_M.
    destruct (save_raw_to_gcs E data d s1) as [[[]|e] s2]; [|reflexivity].
    rewrite bind_M.
    destruct (transform_records E data d s2) as [[records|e] s3]; [|reflexivity].
    rewrite bind_M.
    destruct records as [|r records]; [reflexivity|]. cbn [length Nat.eqb negb].
    destruct (load_to_bigquery E (r :: records) s3) as [[[]|e] s4]; reflexivity.
  - cbv zeta. rewrite bind_M. cbv beta iota. unfold mret, M_ret.
    by rewrite after_after.
Qed.

Lemma adds_refl P s : adds P s s.
Proof. exists []. by rewrite app_nil_r. Qed.

Lemma adds_trans P s1 s2 s3 : adds P s1 s2 → adds P s2 s3 → adds P s1 s3.
Proof.
  intros (evs & H1 & F1) (evs' & H2 & F2). exists (evs ++ evs').
  rewrite H2, H1, app_assoc, forallb_app, F1, F2. done.
Qed.

Lemma adds_after P s evs : forallb P evs = true → adds P s (after s evs).
Proof. intros H. by exists evs. Qed.

Lemma adds_tick P n s : adds P s (tick n s).
Proof. exists []. by rewrite app_nil_r. Qed.

Lemma fetch_nasa_data_adds P E s r s' :
  (∀ url, P (Get url) = true) →
  fetch_nasa_data E s = (r, s') → adds P s s'.
Proof.
  intros HP. rewrite fetch_nasa_data_unfold. cbv zeta. intros H.
  assert (s' = after (tick 1 s) [Get (feed_url E (dt_date (utcnow E (clock_reads s))))])
    as ->.
  { destruct (requests_get E _) as [resp|]; [|congruence].
    destruct (raise_for_status resp); [|congruence].
    destruct (json resp); congruence. }
  eapply adds_trans; [apply adds_tick|apply adds_after]. cbn. by rewrite HP.
Qed.

Lemma save_raw_to_gcs_adds P E data d s r s' :
  (∀ b p t c, P (Upload b p t c) = true) → (∀ args, P (Print args) = true) →
  save_raw_to_gcs E data d s = (r, s') → adds P s s'.
Proof.
  intros HU HP. rewrite save_raw_to_gcs_unfold. unfold upload_of, saved_line.
  destruct (upload_from_string E _ _ _ _); intros [= _ <-];
    apply adds_after; cbn; by rewrite ?HU, ?HP.
Qed.

Lemma transform_records_adds P E data d s r s' :
  (∀ args, P (Print args) = true) →
  transform_records E data d s = (r, s') → adds P s s'.
Proof.
  intros HP. rewrite transform_records_unfold.
  destruct (date_objects data d) as [neos|]; [|intros [= _ <-]; apply adds_refl].
  pose proof (transform_loop_flatten E neos [] s) as Hloop.
  destruct (flatten_all E (clock_reads s) neos) as [rs|e].
  - rewrite Hloop. intros [= _ <-].
    eapply adds_trans; [apply adds_tick|apply adds_after]. cbn. by rewrite HP.
  - destruct Hloop as [k ->]. intros [= _ <-]. apply adds_tick.
Qed.

(** ** The Loader and the entry point *)

(** The mapping the entry point serializes: exactly three keys. *)
Lemma response_body_fields rows d :
  ∃ m, response_body rows d = VDict m
    ∧ dom m = ({["status"; "rows_inserted"; "date"]} : gset string)
    ∧ m !! "status" = Some (VStr "success")
    ∧ m !! "rows_inserted" = Some (VInt (Z.of_nat rows))
    ∧ m !! "date" = Some (VStr (str_date d)).
Proof.
  eexists. split; [reflexivity|].
  split; [|by simplify_map_eq].
  rewrite !dom_insert_L, dom_empty_L. set_solver.
Qed.

(** C4.  With a non-empty batch for which the insert API reports row-level
    errors, the Loader prints them and returns normally, and the entry point
    answers as on any success: HTTP 200, the JSON content type, and the
    serialization of a mapping with exactly the keys "status",
    "rows_inserted" and "date", holding "success", the number of transformed
    rows and the date.  The errors appear nowhere in the answer. *)
Theorem insert_errors_are_swallowed E s data d s1 s2 records s3 errors :
  configured E = true →
  fetch_nasa_data E (started s) = (Ok (data, d), s1) →
  save_raw_to_gcs E data d s1 = (Ok tt, s2) →
  transform_records E data d s2 = (Ok records, s3) →
  records ≠ [] →
  insert_rows_json E (BQ_PROJECT E) (table_id E) records = Ok errors →
  errors ≠ [] →
  let s4 := after s3 [insert_of E records;
                      Print [VStr "Errors occurred:"; VList errors]] in
  load_to_bigquery E records s3 = (Ok tt, s4)
  ∧ ∃ m,
      etl_nasa_neo E s
        = (Ok (Response3 (json_dumps (VDict m)) 200
                 [("Content-Type", "application/json")]), s4)
      ∧ dom m = ({["status"; "rows_inserted"; "date"]} : gset string)
      ∧ m !! "status" = Some (VStr "success")
      ∧ m !! "rows_inserted" = Some (VInt (Z.of_nat (length records)))
      ∧ m !! "date" = Some (VStr (str_date d)).
Proof.
  intros Hcfg Hfetch Hsave Htrans Hrecs Hins Herr s4.
  assert (Hload : load_to_bigquery E records s3 = (Ok tt, s4)).
  { rewrite load_to_bigquery_unfold, Hins.
    destruct errors; [done|reflexivity]. }
  split; [exact Hload|].
  destruct (response_body_fields (length records) d)
    as (m & Hm & Hdom & H1 & H2 & H3).
  exists m. split; [|done].
  rewrite etl_nasa_neo_unfold, Hcfg, Hfetch, Hsave, Htrans.
  destruct records; [done|]. rewrite Hload. unfold success_response.
  by rewrite Hm.
Qed.

(** C5.  If one of the three configuration values is absent, the entry point
    answers [("Missing required environment variables", 500)]; it prints two
    lines and does nothing else: no clock reading, no fetch, no archive, no
    insert. *)
Theorem missing_configuration_aborts E s :
  NASA_API_KEY E = None ∨ BUCKET_NAME E = None ∨ BQ_PROJECT E = None →
  ∃ s',
    etl_nasa_neo E s = (Ok (Response2 "Missing required environment variables" 500), s')
    ∧ s' = after s [Print [VStr "Starting NASA NEO ETL..."];
                    Print [VStr "Missing required environment variables"]]
    ∧ List.filter is_external (trace s') = List.filter is_external (trace s)
    ∧ clock_reads s' = clock_reads s.
Proof.
  intros H. eexists. rewrite etl_nasa_neo_unfold.
  assert (configured E = false) as ->.
  { unfold configured. destruct H as [ -> | [ -> | -> ] ]; cbn;
      rewrite ?andb_false_r; reflexivity. }
  split; [reflexivity|]. split; [reflexivity|]. split; [|reflexivity].
  cbn [trace after]. rewrite List.filter_app. cbn. by rewrite app_nil_r.
Qed.

Lemma insert_errors_are_swallowed_witness :
  ∃ s1 s2 s3,
    configured (world (Some "DEMO_KEY") example_payload [row_error]) = true
    ∧ fetch_nasa_data (world (Some "DEMO_KEY") example_payload [row_error])
        (started start) = (Ok (example_payload, example_date), s1)
    ∧ save_raw_to_gcs (world (Some "DEMO_KEY") example_payload [row_error])
        example_payload example_date s1 = (Ok tt, s2)
    ∧ transform_records (world (Some "DEMO_KEY") example_payload [row_error])
        example_payload example_date s2
      = (Ok [example_record "2024-05-01T12:00:00.000001"], s3)
    ∧ [example_record "2024-05-01T12:00:00.000001"] ≠ []
    ∧ [row_error] ≠ []
    ∧ ∃ m,
        etl_nasa_neo (world (Some "DEMO_KEY") example_payload [row_error]) start
        = (Ok (Response3 (json_dumps (VDict m)) 200
                 [("Content-Type", "application/json")]),
           after s3
             [insert_of (world (Some "DEMO_KEY") example_payload [row_error])
                [example_record "2024-05-01T12:00:00.000001"];
              Print [VStr "Errors occurred:"; VList [row_error]]])
        ∧ dom m = ({["status"; "rows_inserted"; "date"]} : gset string)
        ∧ m !! "status" = Some (VStr "success")
        ∧ m !! "rows_inserted" = Some (VInt 1)
        ∧ m !! "date" = Some (VStr "2024-05-01").
Proof.
  pose (E := world (Some "DEMO_KEY") example_payload [row_error]).
  pose (s1 := snd (fetch_nasa_data E (started start))).
  pose (s2 := snd (save_raw_to_gcs E example_payload example_date s1)).
  pose (s3 := snd (transform_records E example_payload example_date s2)).
  assert (H0 : configured E = true) by reflexivity.
  assert (H1 : fetch_nasa_data E (started start)
               = (Ok (example_payload, example_date), s1))
    by (vm_compute; reflexivity).
  assert (H2 : save_raw_to_gcs E example_payload example_date s1 = (Ok tt, s2))
    by (vm_compute; reflexivity).
  assert (H3 : transform_records E example_payload example_date s2
               = (Ok [example_record "2024-05-01T12:00:00.000001"], s3))
    by (vm_compute; reflexivity).
  assert (H4 : [example_record "2024-05-01T12:00:00.000001"] ≠ []) by discriminate.
  assert (H5 : [row_error] ≠ []) by discriminate.
  exists s1, s2, s3.
  split; [exact H0|]. split; [exact H1|]. split; [exact H2|]. split; [exact H3|].
  split; [exact H4|]. split; [exact H5|].
  exact (proj2 (insert_errors_are_swallowed E start example_payload example_date
                  s1 s2 _ s3 [row_error] H0 H1 H2 H3 H4 eq_refl H5)).
Defined.

Lemma missing_configuration_aborts_witness :
  (NASA_API_KEY (world None example_payload []) = None
   ∨ BUCKET_NAME (world None example_payload []) = None
   ∨ BQ_PROJECT (world None example_payload []) = None)
  ∧ ∃ s',
      etl_nasa_neo (world None example_payload []) start
        = (Ok (Response2 "Missing required environment variables" 500), s')
      ∧ s' = after start [Print [VStr "Starting NASA NEO ETL..."];
                          Print [VStr "Missing required environment variables"]]
      ∧ List.filter is_external (trace s') = List.filter is_external (trace start)
      ∧ clock_reads s' = clock_reads start.
Proof.
  assert (H : NASA_API_KEY (world None example_payload []) = None
              ∨ BUCKET_NAME (world None example_payload []) = None
              ∨ BQ_PROJECT (world None example_payload []) = None)
    by (left; reflexivity).
  split; [exact H|].
  exact (missing_configuration_aborts (world None example_payload []) start H).
Defined.

Lemma load_to_bigquery_adds E records s r s' :
  records ≠ [] →
  load_to_bigquery E records s = (r, s') → adds carries_rows s s'.
Proof.
  intros Hrecs. rewrite load_to_bigquery_unfold. unfold insert_of.
  destruct records as [|r0 records]; [done|].
  destruct (insert_rows_json E _ _ _) as [errors|];
    intros [= _ <-]; apply adds_after; [|reflexivity].
  destruct errors; reflexivity.
Qed.

(** C7.  No insert call is issued for an empty sequence.  The Loader is
    called at one place, under the test [if records:] of the entry point:
    when the Transformer returns no row the Loader is not called, the run ends
    with the success answer for zero rows and its trace gains no insert call;
    and in every run, whatever its outcome, each insert call that is issued
    carries at least one row. *)
Theorem empty_batch_issues_no_insert :
  (∀ E s data d s1 s2 s3,
     configured E = true →
     fetch_nasa_data E (started s) = (Ok (data, d), s1) →
     save_raw_to_gcs E data d s1 = (Ok tt, s2) →
     transform_records E data d s2 = (Ok [], s3) →
     etl_nasa_neo E s = (Ok (success_response 0 d), s3)
     ∧ List.filter is_insert (trace s3) = List.filter is_insert (trace s))
  ∧ (∀ E s r s', etl_nasa_neo E s = (r, s') → adds carries_rows s s').
Proof.
  split.
  - intros E s data d s1 s2 s3 Hcfg Hfetch Hsave Htrans.
    split; [by rewrite etl_nasa_neo_unfold, Hcfg, Hfetch, Hsave, Htrans|].
    assert (Hadds : adds (fun ev => negb (is_insert ev)) s s3).
    { eapply adds_trans; [by apply (adds_after _ s [Print [VStr "Starting NASA NEO ETL..."]])|].
      eapply adds_trans; [by eapply fetch_nasa_data_adds, Hfetch|].
      eapply adds_trans; [by eapply save_raw_to_gcs_adds, Hsave|].
      by eapply transform_records_adds, Htrans. }
    destruct Hadds as (evs & -> & Hevs).
    rewrite List.filter_app.
    replace (List.filter is_insert evs) with (@nil event); [by rewrite app_nil_r|].
    clear -Hevs. induction evs as [|ev evs IH]; [done|].
    cbn in Hevs. apply andb_true_iff in Hevs as [Hev Hevs].
    cbn. destruct (is_insert ev); [done|]. by apply IH.
  - intros E s r s'. rewrite etl_nasa_neo_unfold.
    destruct (configured E); [|intros [= _ <-]; by apply adds_after].
    assert (Hstart : adds carries_rows s (started s)) by by apply adds_after.
    destruct (fetch_nasa_data E (started s)) as [[[data d]|e] s1] eqn:Hfetch.
    2:{ intros [= _ <-]. eapply adds_trans; [exact Hstart|].
        by eapply fetch_nasa_data_adds, Hfetch. }
    assert (H1 : adds carries_rows s s1).
    { eapply adds_trans; [exact Hstart|]. by eapply fetch_nasa_data_adds, Hfetch. }
    destruct (save_raw_to_gcs E data d s1) as [[[]|e] s2] eqn:Hsave.
    2:{ intros [= _ <-]. eapply adds_trans; [exact H1|].
        by eapply save_raw_to_gcs_adds, Hsave. }
    assert (H2 : adds carries_rows s s2).
    { eapply adds_trans; [exact H1|]. by eapply save_raw_to_gcs_adds, Hsave. }
    destruct (transform_records E data d s2) as [[records|e] s3] eqn:Htrans.
    2:{ intros [= _ <-]. eapply adds_trans; [exact H2|].
        by eapply transform_records_adds, Htrans. }
    assert (H3 : adds carries_rows s s3).
    { eapply adds_trans; [exact H2|]. by eapply transform_records_adds, Htrans. }
    destruct records as [|r0 records]; [by intros [= _ <-]|].
    destruct (load_to_bigquery E (r0 :: records) s3) as [[[]|e] s4] eqn:Hload;
      intros [= _ <-]; (eapply adds_trans; [exact H3|]);
      by eapply load_to_bigquery_adds, Hload.
Qed.

Lemma empty_batch_issues_no_insert_witness :
  ∃ s1 s2 s3,
    configured (world (Some "DEMO_KEY") (payload_of "2024-05-01" [bare_object]) [])
      = true
    ∧ fetch_nasa_data
        (world (Some "DEMO_KEY") (payload_of "2024-05-01" [bare_object]) [])
        (started start)
      = (Ok (payload_of "2024-05-01" [bare_object], example_date), s1)
    ∧ save_raw_to_gcs
        (world (Some "DEMO_KEY") (payload_of "2024-05-01" [bare_object]) [])
        (payload_of "2024-05-01" [bare_object]) example_date s1 = (Ok tt, s2)
    ∧ transform_records
        (world (Some "DEMO_KEY") (payload_of "2024-05-01" [bare_object]) [])
        (payload_of "2024-05-01" [bare_object]) example_date s2 = (Ok [], s3)
    ∧ etl_nasa_neo
        (world (Some "DEMO_KEY") (payload_of "2024-05-01" [bare_object]) []) start
      = (Ok (success_response 0 example_date), s3)
    ∧ List.filter is_insert (trace s3) = List.filter is_insert (trace start).
Proof.
  pose (E := world (Some "DEMO_KEY") (payload_of "2024-05-01" [bare_object]) []).
  pose (data := payload_of "2024-05-01" [bare_object]).
  pose (s1 := snd (fetch_nasa_data E (started start))).
  pose (s2 := snd (save_raw_to_gcs E data example_date s1)).
  pose (s3 := snd (transform_records E data example_date s2)).
  assert (H0 : configured E = true) by reflexivity.
  assert (H1 : fetch_nasa_data E (started start) = (Ok (data, example_date), s1))
    by (vm_compute; reflexivity).
  assert (H2 : save_raw_to_gcs E data example_date s1 = (Ok tt, s2))
    by (vm_compute; reflexivity).
  assert (H3 : transform_records E data example_date s2 = (Ok [], s3))
    by (vm_compute; reflexivity).
  exists s1, s2, s3.
  split; [exact H0|]. split; [exact H1|]. split; [exact H2|]. split; [exact H3|].
  exact (proj1 empty_batch_issues_no_insert E start data example_date s1 s2 s3
           H0 H1 H2 H3).
Defined.

(** The guard passes exactly when the three values are set and non-empty. *)
Lemma configured_iff E :
  configured E = true ↔
  ∃ key bucket project,
    NASA_API_KEY E = Some key ∧ BUCKET_NAME E = Some bucket
    ∧ BQ_PROJECT E = Some project
    ∧ key ≠ "" ∧ bucket ≠ "" ∧ project ≠ "".
Proof.
  unfold configured, truthy_opt. split.
  - intros H. apply andb_true_iff in H as [H H3]. apply andb_true_iff in H as [H1 H2].
    destruct (NASA_API_KEY E) as [key|]; [|discriminate].
    destruct (BUCKET_NAME E) as [bucket|]; [|discriminate].
    destruct (BQ_PROJECT E) as [project|]; [|discriminate].
    exists key, bucket, project.
    repeat split; intros ->; discriminate.
  - intros (key & bucket & project & -> & -> & -> & H1 & H2 & H3).
    rewrite !andb_true_iff, !negb_true_iff. repeat split;
      by apply String.eqb_neq.
Qed.

Lemma fetch_nasa_data_date E s data d s1 :
  fetch_nasa_data E s = (Ok (data, d), s1) →
  d = dt_date (utcnow E (clock_reads s)).
Proof.
  rewrite fetch_nasa_data_unfold. cbv zeta.
  destruct (requests_get E _) as [resp|]; [|discriminate].
  destruct (raise_for_status resp); [|discriminate].
  destruct (json resp); [|discriminate]. by intros [= _ <- _].
Qed.

(** C8.  A run with the configuration present (the guard of the entry point
    passes) that ends without an exception answers with HTTP 200, the JSON
    content type and the serialization of a mapping with exactly the keys "status", "rows_inserted" and "date":
    "success", the number of rows the Transformer returned, and the string
    form of the UTC date read by the Fetcher at the start of the run. *)
Theorem successful_run_response E s resp s' :
  configured E = true →
  etl_nasa_neo E s = (Ok resp, s') →
  ∃ data d s1 s2 records s3 m,
    d = dt_date (utcnow E (clock_reads s))
    ∧ fetch_nasa_data E (started s) = (Ok (data, d), s1)
    ∧ save_raw_to_gcs E data d s1 = (Ok tt, s2)
    ∧ transform_records E data d s2 = (Ok records, s3)
    ∧ resp = Response3 (json_dumps (VDict m)) 200
               [("Content-Type", "application/json")]
    ∧ dom m = ({["status"; "rows_inserted"; "date"]} : gset string)
    ∧ m !! "status" = Some (VStr "success")
    ∧ m !! "rows_inserted" = Some (VInt (Z.of_nat (length records)))
    ∧ m !! "date" = Some (VStr (str_date d)).
Proof.
  intros Hcfg. rewrite etl_nasa_neo_unfold, Hcfg.
  destruct (fetch_nasa_data E (started s)) as [[[data d]|e] s1] eqn:Hfetch;
    [|discriminate].
  destruct (save_raw_to_gcs E data d s1) as [[[]|e] s2] eqn:Hsave; [|discriminate].
  destruct (transform_records E data d s2) as [[records|e] s3] eqn:Htrans;
    [|discriminate].
  intros H.
  assert (Hresp : resp = success_response (length records) d).
  { destruct records as [|r0 records]; [by injection H as <- _|].
    destruct (load_to_bigquery E (r0 :: records) s3) as [[[]|e] s4];
      [by injection H as <- _|discriminate]. }
  destruct (response_body_fields (length records) d)
    as (m & Hm & Hdom & H1 & H2 & H3).
  exists data, d, s1, s2, records, s3, m.
  split; [exact (fetch_nasa_data_date _ _ _ _ _ Hfetch)|].
  repeat (split; [done|]). split; [|done].
  rewrite Hresp. unfold success_response. by rewrite Hm.
Qed.

Lemma successful_run_response_witness :
  configured example_env = true
  ∧ etl_nasa_neo example_env start
    = (Ok (success_response 1 example_date),
       snd (etl_nasa_neo example_env start))
  ∧ ∃ data d s1 s2 records s3 m,
      d = dt_date (utcnow example_env (clock_reads start))
      ∧ fetch_nasa_data example_env (started start) = (Ok (data, d), s1)
      ∧ save_raw_to_gcs example_env data d s1 = (Ok tt, s2)
      ∧ transform_records example_env data d s2 = (Ok records, s3)
      ∧ success_response 1 example_date
        = Response3 (json_dumps (VDict m)) 200
            [("Content-Type", "application/json")]
      ∧ dom m = ({["status"; "rows_inserted"; "date"]} : gset string)
      ∧ m !! "status" = Some (VStr "success")
      ∧ m !! "rows_inserted" = Some (VInt (Z.of_nat (length records)))
      ∧ m !! "date" = Some (VStr (str_date d)).
Proof.
  assert (H0 : configured example_env = true) by reflexivity.
  assert (H1 : etl_nasa_neo example_env start
               = (Ok (success_response 1 example_date),
                  snd (etl_nasa_neo example_env start)))
    by (vm_compute; reflexivity).
  split; [exact H0|]. split; [exact H1|].
  exact (successful_run_response example_env start _ _ H0 H1).
Defined.

(** ** The Archiver *)

(** The Archiver makes one write: the serialization of the payload it was
    given, unchanged, under the path derived from the date. *)
Lemma save_raw_to_gcs_writes_payload E data d s r s' :
  save_raw_to_gcs E data d s = (r, s') →
  ∃ evs,
    trace s' = trace s
               ++ Upload (BUCKET_NAME E) (blob_path d) (json_dumps data)
                    "application/json" :: evs
    ∧ forallb (fun ev => negb (is_external ev)) evs = true.
Proof.
  rewrite save_raw_to_gcs_unfold. unfold upload_of, saved_line.
  destruct (upload_from_string E _ _ _ _); intros [= _ <-]; eexists;
    (split; [reflexivity|reflexivity]).
Qed.

Lemma blob_path_example :
  blob_path example_date = "raw/neo/2024/05/01/neo_2024-05-01.json".
Proof. reflexivity. Qed.

(** C6.  For every payload, the Archiver makes one write to blob storage,
    under the path derived from the date, and the text it writes parses back
    to the payload it was given: the payload is serialized as it is, nothing
    is added, dropped or changed before the write.  (The parser is the
    library's, modelled from the specification.) *)
Theorem archived_blob_parses_back E data d s r s' :
  save_raw_to_gcs E data d s = (r, s') →
  ∃ body evs,
    trace s' = trace s
               ++ Upload (BUCKET_NAME E) (blob_path d) body "application/json"
                  :: evs
    ∧ forallb (fun ev => negb (is_external ev)) evs = true
    ∧ json_loads body = Some data.
Proof.
  intros H. apply save_raw_to_gcs_writes_payload in H as (evs & Htrace & Hevs).
  exists (json_dumps data), evs. by repeat split.
Qed.

Lemma archived_blob_parses_back_witness :
  save_raw_to_gcs example_env example_payload example_date start
    = (Ok tt, after start [upload_of example_env example_payload example_date;
                           saved_line example_env example_date])
  ∧ ∃ body evs,
      trace (after start [upload_of example_env example_payload example_date;
                          saved_line example_env example_date])
      = trace start
        ++ Upload (BUCKET_NAME example_env) (blob_path example_date) body
             "application/json" :: evs
      ∧ forallb (fun ev => negb (is_external ev)) evs = true
      ∧ json_loads body = Some example_payload.
Proof.
  assert (H : save_raw_to_gcs example_env example_payload example_date start
              = (Ok tt, after start
                          [upload_of example_env example_payload example_date;
                           saved_line example_env example_date]))
    by (vm_compute; reflexivity).
  split; [exact H|].
  exact (archived_blob_parses_back example_env example_payload example_date start
           _ _ H).
Defined.

(** * Further properties of the pipeline *)

(** ** The calls of a run *)

Lemma calls_between_refl s : calls_between s s [].
Proof. exists []. by rewrite app_nil_r. Qed.

Lemma calls_between_trans s1 s2 s3 c1 c2 :
  calls_between s1 s2 c1 → calls_between s2 s3 c2 →
  calls_between s1 s3 (c1 ++ c2).
Proof.
  intros (evs & H1 & F1) (evs' & H2 & F2). exists (evs ++ evs').
  by rewrite H2, H1, app_assoc, List.filter_app, F1, F2.
Qed.

Lemma calls_between_after s evs :
  calls_between s (after s evs) (List.filter is_external evs).
Proof. by exists evs. Qed.

Lemma calls_between_tick n s : calls_between s (tick n s) [].
Proof. exists []. by rewrite app_nil_r. Qed.

Lemma fetch_nasa_data_calls E s r s' :
  fetch_nasa_data E s = (r, s') →
  calls_between s s' [Get (feed_url E (dt_date (utcnow E (clock_reads s))))]
  ∧ clock_reads s' = S (clock_reads s).
Proof.
  rewrite fetch_nasa_data_unfold. cbv zeta. intros H.
  assert (s' = after (tick 1 s) [Get (feed_url E (dt_date (utcnow E (clock_reads s))))])
    as ->.
  { destruct (requests_get E _) as [resp|]; [|congruence].
    destruct (raise_for_status resp); [|congruence].
    destruct (json resp); congruence. }
  split; [|cbn; lia].
  apply (calls_between_trans _ _ _ [] _ (calls_between_tick 1 s)).
  apply calls_between_after.
Qed.

Lemma save_raw_to_gcs_calls E data d s r s' :
  save_raw_to_gcs E data d s = (r, s') →
  calls_between s s' [upload_of E data d] ∧ clock_reads s' = clock_reads s.
Proof.
  rewrite save_raw_to_gcs_unfold.
  destruct (upload_from_string E _ _ _ _); intros [= _ <-];
    (split; [apply calls_between_after|reflexivity]).
Qed.

Lemma transform_records_calls E data d s r s' :
  transform_records E data d s = (r, s') → calls_between s s' [].
Proof.
  rewrite transform_records_unfold.
  destruct (date_objects data d) as [neos|];
    [|intros [= _ <-]; apply calls_between_refl].
  pose proof (transform_loop_flatten E neos [] s) as Hloop.
  destruct (flatten_all E (clock_reads s) neos) as [rs|e].
  - rewrite Hloop. intros [= _ <-].
    apply (calls_between_trans _ _ _ [] _ (calls_between_tick (length rs) s)).
    apply calls_between_after.
  - destruct Hloop as [k ->]. intros [= _ <-]. apply calls_between_tick.
Qed.

Lemma load_to_bigquery_calls E records s r s' :
  load_to_bigquery E records s = (r, s') →
  calls_between s s' [insert_of E records].
Proof.
  rewrite load_to_bigquery_unfold.
  destruct (insert_rows_json E _ _ _) as [errors|]; intros [= _ <-].
  - destruct errors; apply calls_between_after.
  - apply calls_between_after.
Qed.

Lemma started_calls s : calls_between s (started s) [] .
Proof. apply (calls_between_after s [Print _]). Qed.

(** X1.  Whatever the outcome of a run, its external calls are, in this
    order, at most one GET on the feed, one storage write and one insert: the
    GET asks for the date of the first clock reading as both ends of the
    range, the write stores the payload the feed returned under that same
    date, and the insert carries the non-empty batch returned by the
    Transformer.  No call is repeated and none is made out of order. *)
Theorem external_calls_in_order E s r s' :
  etl_nasa_neo E s = (r, s') →
  let d := dt_date (utcnow E (clock_reads s)) in
  calls_between s s' []
  ∨ calls_between s s' [Get (feed_url E d)]
  ∨ (∃ data,
       fst (fetch_nasa_data E (started s)) = Ok (data, d)
       ∧ calls_between s s' [Get (feed_url E d); upload_of E data d])
  ∨ (∃ data records s2 s3,
       fst (fetch_nasa_data E (started s)) = Ok (data, d)
       ∧ transform_records E data d s2 = (Ok records, s3)
       ∧ records ≠ []
       ∧ calls_between s s'
           [Get (feed_url E d); upload_of E data d; insert_of E records]).
Proof.
  intros H d. rewrite etl_nasa_neo_unfold in H.
  destruct (configured E).
  2:{ left. injection H as _ <-. apply (calls_between_after s [Print _; Print _]). }
  destruct (fetch_nasa_data E (started s)) as [[[data d']|e] s1] eqn:Hfetch.
  2:{ right; left. injection H as _ <-.
      apply (calls_between_trans _ _ _ [] _ (started_calls s)).
      apply (fetch_nasa_data_calls _ _ _ _ Hfetch). }
  assert (d' = d) as -> by exact (fetch_nasa_data_date _ _ _ _ _ Hfetch).
  assert (H1 : calls_between s s1 [Get (feed_url E d)]).
  { apply (calls_between_trans _ _ _ [] _ (started_calls s)).
    apply (fetch_nasa_data_calls _ _ _ _ Hfetch). }
  destruct (save_raw_to_gcs E data d s1) as [[[]|e] s2] eqn:Hsave.
  2:{ right; right; left. exists data. split; [reflexivity|]. injection H as _ <-.
      apply (calls_between_trans _ _ _ [_] [_] H1).
      apply (save_raw_to_gcs_calls _ _ _ _ _ _ Hsave). }
  assert (H2 : calls_between s s2 [Get (feed_url E d); upload_of E data d]).
  { apply (calls_between_trans _ _ _ [_] [_] H1).
    apply (save_raw_to_gcs_calls _ _ _ _ _ _ Hsave). }
  destruct (transform_records E data d s2) as [[records|e] s3] eqn:Htrans.
  2:{ right; right; left. exists data. split; [reflexivity|]. injection H as _ <-.
      apply (calls_between_trans _ _ _ [_; _] [] H2).
      apply (transform_records_calls _ _ _ _ _ _ Htrans). }
  assert (H3 : calls_between s s3 [Get (feed_url E d); upload_of E data d]).
  { apply (calls_between_trans _ _ _ [_; _] [] H2).
    apply (transform_records_calls _ _ _ _ _ _ Htrans). }
  destruct records as [|r0 records].
  { right; right; left. exists data. split; [reflexivity|]. by injection H as _ <-. }
  right; right; right. exists data, (r0 :: records), s2, s3.
  split; [reflexivity|]. split; [exact Htrans|]. split; [discriminate|].
  destruct (load_to_bigquery E (r0 :: records) s3) as [[[]|e] s4] eqn:Hload;
    injection H as _ <-;
    apply (calls_between_trans _ _ _ [_; _] [_] H3);
    apply (load_to_bigquery_calls _ _ _ _ _ Hload).
Qed.

Lemma external_calls_in_order_witness :
  etl_nasa_neo example_env start
    = (fst (etl_nasa_neo example_env start), snd (etl_nasa_neo example_env start))
  ∧ (calls_between start (snd (etl_nasa_neo example_env start)) []
     ∨ calls_between start (snd (etl_nasa_neo example_env start))
         [Get (feed_url example_env example_date)]
     ∨ (∃ data,
          fst (fetch_nasa_data example_env (started start)) = Ok (data, example_date)
          ∧ calls_between start (snd (etl_nasa_neo example_env start))
              [Get (feed_url example_env example_date);
               upload_of example_env data example_date])
     ∨ (∃ data records s2 s3,
          fst (fetch_nasa_data example_env (started start)) = Ok (data, example_date)
          ∧ transform_records example_env data example_date s2 = (Ok records, s3)
          ∧ records ≠ []
          ∧ calls_between start (snd (etl_nasa_neo example_env start))
              [Get (feed_url example_env example_date);
               upload_of example_env data example_date;
               insert_of example_env records])).
Proof.
  assert (H : etl_nasa_neo example_env start
              = (fst (etl_nasa_neo example_env start),
                 snd (etl_nasa_neo example_env start)))
    by (vm_compute; reflexivity).
  split; [exact H|].
  exact (external_calls_in_order example_env start _ _ H).
Defined.

(** ** Failures of the steps *)

(** X2.  When the feed answers with a 4xx or 5xx status, the run raises
    [HTTPError] with that status, whatever the body holds: it has made the one
    GET and makes no storage write and no insert. *)
Theorem http_error_stops_run E s resp :
  configured E = true →
  requests_get E (feed_url E (dt_date (utcnow E (clock_reads s)))) = Ok resp →
  400 ≤ status_code resp < 600 →
  ∃ s1,
    etl_nasa_neo E s = (Raise (HTTPError (status_code resp)), s1)
    ∧ calls_between s s1 [Get (feed_url E (dt_date (utcnow E (clock_reads s))))].
Proof.
  intros Hcfg Hget Hstatus.
  assert (Hfetch : fetch_nasa_data E (started s)
                   = (Raise (HTTPError (status_code resp)),
                      after (tick 1 (started s))
                        [Get (feed_url E (dt_date (utcnow E (clock_reads s))))])).
  { rewrite fetch_nasa_data_unfold. cbv zeta.
    change (clock_reads (started s)) with (clock_reads s). rewrite Hget.
    unfold raise_for_status.
    destruct (Z.leb_spec 400 (status_code resp)); [|lia].
    destruct (Z.ltb_spec (status_code resp) 600); [|lia]. reflexivity. }
  eexists. rewrite etl_nasa_neo_unfold, Hcfg, Hfetch. split; [reflexivity|].
  apply (calls_between_trans _ _ _ [] _ (started_calls s)).
  apply (fetch_nasa_data_calls _ _ _ _ Hfetch).
Qed.

Lemma http_error_stops_run_witness :
  configured (faulty_world 503 (Ok tt) (Ok []) example_payload) = true
  ∧ requests_get (faulty_world 503 (Ok tt) (Ok []) example_payload)
      (feed_url (faulty_world 503 (Ok tt) (Ok []) example_payload)
         (dt_date (utcnow (faulty_world 503 (Ok tt) (Ok []) example_payload)
                     (clock_reads start))))
    = Ok {| status_code := 503; json := Ok example_payload |}
  ∧ 400 ≤ 503 < 600
  ∧ ∃ s1,
      etl_nasa_neo (faulty_world 503 (Ok tt) (Ok []) example_payload) start
        = (Raise (HTTPError 503), s1)
      ∧ calls_between start s1
          [Get (feed_url (faulty_world 503 (Ok tt) (Ok []) example_payload)
                  (dt_date (utcnow (faulty_world 503 (Ok tt) (Ok []) example_payload)
                              (clock_reads start))))].
Proof.
  assert (H1 : configured (faulty_world 503 (Ok tt) (Ok []) example_payload) = true)
    by reflexivity.
  assert (H3 : 400 ≤ 503 < 600) by lia.
  split; [exact H1|]. split; [reflexivity|]. split; [exact H3|].
  exact (http_error_stops_run (faulty_world 503 (Ok tt) (Ok []) example_payload)
           start {| status_code := 503; json := Ok example_payload |}
           H1 eq_refl H3).
Defined.

(** X3.  When the storage write raises, the run raises the same exception
    right after that call: the "saved" line is not printed, the Transformer
    does not run (no further clock reading) and nothing is inserted. *)
Theorem archive_failure_stops_run E s data d s1 e :
  configured E = true →
  fetch_nasa_data E (started s) = (Ok (data, d), s1) →
  upload_from_string E (BUCKET_NAME E) (blob_path d) (json_dumps data)
    "application/json" = Raise e →
  etl_nasa_neo E s = (Raise e, after s1 [upload_of E data d])
  ∧ calls_between s (after s1 [upload_of E data d])
      [Get (feed_url E d); upload_of E data d].
Proof.
  intros Hcfg Hfetch Hup.
  assert (Hsave : save_raw_to_gcs E data d s1
                  = (Raise e, after s1 [upload_of E data d]))
    by by rewrite save_raw_to_gcs_unfold, Hup.
  split; [by rewrite etl_nasa_neo_unfold, Hcfg, Hfetch, Hsave|].
  pose proof (fetch_nasa_data_date _ _ _ _ _ Hfetch) as Hd.
  change (clock_reads (started s)) with (clock_reads s) in Hd.
  apply (calls_between_trans _ s1 _ [_] [_]).
  - rewrite Hd.
    apply (calls_between_trans _ _ _ [] _ (started_calls s)).
    apply (fetch_nasa_data_calls _ _ _ _ Hfetch).
  - apply calls_between_after.
Qed.

Lemma archive_failure_stops_run_witness :
  ∃ s1,
    configured (faulty_world 200 (Raise (ClientError "upload")) (Ok []) example_payload)
      = true
    ∧ fetch_nasa_data
        (faulty_world 200 (Raise (ClientError "upload")) (Ok []) example_payload)
        (started start) = (Ok (example_payload, example_date), s1)
    ∧ etl_nasa_neo
        (faulty_world 200 (Raise (ClientError "upload")) (Ok []) example_payload) start
      = (Raise (ClientError "upload"),
         after s1
           [upload_of
              (faulty_world 200 (Raise (ClientError "upload")) (Ok []) example_payload)
              example_payload example_date]).
Proof.
  pose (E := faulty_world 200 (Raise (ClientError "upload")) (Ok []) example_payload).
  pose (s1 := snd (fetch_nasa_data E (started start))).
  assert (H0 : configured E = true) by reflexivity.
  assert (H1 : fetch_nasa_data E (started start)
               = (Ok (example_payload, example_date), s1))
    by (vm_compute; reflexivity).
  exists s1. split; [exact H0|]. split; [exact H1|].
  exact (proj1 (archive_failure_stops_run E start example_payload example_date s1
                  (ClientError "upload") H0 H1 eq_refl)).
Defined.

Lemma transform_records_Raise E data d s e s' :
  transform_records E data d s = (Raise e, s') → ∃ k, s' = tick k s.
Proof.
  rewrite transform_records_unfold.
  destruct (date_objects data d) as [neos|];
    [|intros [= _ <-]; exists 0%nat; by rewrite tick_0].
  pose proof (transform_loop_flatten E neos [] s) as Hloop.
  destruct (flatten_all E (clock_reads s) neos) as [rs|e'].
  - by rewrite Hloop.
  - destruct Hloop as [k ->]. intros [= _ <-]. eauto.
Qed.

(** X4.  When the Transformer raises, the run raises the same exception
    after the raw payload has been written: the write is in the trace and is
    not undone, the Transformer prints nothing, and nothing is inserted. *)
Theorem transform_failure_keeps_archive E s data d s1 s2 e s3 :
  configured E = true →
  fetch_nasa_data E (started s) = (Ok (data, d), s1) →
  save_raw_to_gcs E data d s1 = (Ok tt, s2) →
  transform_records E data d s2 = (Raise e, s3) →
  etl_nasa_neo E s = (Raise e, s3)
  ∧ trace s3 = trace s1 ++ [upload_of E data d; saved_line E d]
  ∧ calls_between s s3 [Get (feed_url E d); upload_of E data d].
Proof.
  intros Hcfg Hfetch Hsave Htrans.
  split; [by rewrite etl_nasa_neo_unfold, Hcfg, Hfetch, Hsave, Htrans|].
  pose proof (fetch_nasa_data_date _ _ _ _ _ Hfetch) as Hd.
  change (clock_reads (started s)) with (clock_reads s) in Hd.
  split.
  - apply transform_records_Raise in Htrans as [k ->].
    rewrite save_raw_to_gcs_unfold in Hsave.
    destruct (upload_from_string E _ _ _ _); [|discriminate].
    by injection Hsave as <-.
  - apply (calls_between_trans _ s2 _ [_; _] []).
    + apply (calls_between_trans _ s1 _ [_] [_]).
      * rewrite Hd. apply (calls_between_trans _ _ _ [] _ (started_calls s)).
        apply (fetch_nasa_data_calls _ _ _ _ Hfetch).
      * apply (save_raw_to_gcs_calls _ _ _ _ _ _ Hsave).
    + apply (transform_records_calls _ _ _ _ _ _ Htrans).
Qed.

Lemma transform_failure_keeps_archive_witness :
  ∃ s1 s2 s3,
    configured (world (Some "DEMO_KEY") (payload_of "2024-05-01" [nameless_object]) [])
      = true
    ∧ fetch_nasa_data
        (world (Some "DEMO_KEY") (payload_of "2024-05-01" [nameless_object]) [])
        (started start)
      = (Ok (payload_of "2024-05-01" [nameless_object], example_date), s1)
    ∧ save_raw_to_gcs
        (world (Some "DEMO_KEY") (payload_of "2024-05-01" [nameless_object]) [])
        (payload_of "2024-05-01" [nameless_object]) example_date s1 = (Ok tt, s2)
    ∧ transform_records
        (world (Some "DEMO_KEY") (payload_of "2024-05-01" [nameless_object]) [])
        (payload_of "2024-05-01" [nameless_object]) example_date s2
      = (Raise (KeyError "name"), s3)
    ∧ etl_nasa_neo
        (world (Some "DEMO_KEY") (payload_of "2024-05-01" [nameless_object]) []) start
      = (Raise (KeyError "name"), s3).
Proof.
  pose (data := payload_of "2024-05-01" [nameless_object]).
  pose (E := world (Some "DEMO_KEY") data []).
  pose (s1 := snd (fetch_nasa_data E (started start))).
  pose (s2 := snd (save_raw_to_gcs E data example_date s1)).
  pose (s3 := snd (transform_records E data example_date s2)).
  assert (H0 : configured E = true) by reflexivity.
  assert (H1 : fetch_nasa_data E (started start) = (Ok (data, example_date), s1))
    by (vm_compute; reflexivity).
  assert (H2 : save_raw_to_gcs E data example_date s1 = (Ok tt, s2))
    by (vm_compute; reflexivity).
  assert (H3 : transform_records E data example_date s2
               = (Raise (KeyError "name"), s3))
    by (vm_compute; reflexivity).
  exists s1, s2, s3.
  split; [exact H0|]. split; [exact H1|]. split; [exact H2|]. split; [exact H3|].
  exact (proj1 (transform_failure_keeps_archive E start data example_date s1 s2
                  (KeyError "name") s3 H0 H1 H2 H3)).
Defined.

(** X5.  Only row-level errors reported by the insert API are swallowed: when
    the insert call itself raises, the Loader prints nothing and the run
    raises that exception instead of answering. *)
Theorem insert_exception_propagates E s data d s1 s2 records s3 e :
  configured E = true →
  fetch_nasa_data E (started s) = (Ok (data, d), s1) →
  save_raw_to_gcs E data d s1 = (Ok tt, s2) →
  transform_records E data d s2 = (Ok records, s3) →
  records ≠ [] →
  insert_rows_json E (BQ_PROJECT E) (table_id E) records = Raise e →
  load_to_bigquery E records s3 = (Raise e, after s3 [insert_of E records])
  ∧ etl_nasa_neo E s = (Raise e, after s3 [insert_of E records]).
Proof.
  intros Hcfg Hfetch Hsave Htrans Hrecs Hins.
  assert (Hload : load_to_bigquery E records s3
                  = (Raise e, after s3 [insert_of E records]))
    by by rewrite load_to_bigquery_unfold, Hins.
  split; [exact Hload|].
  rewrite etl_nasa_neo_unfold, Hcfg, Hfetch, Hsave, Htrans.
  destruct records; [done|]. by rewrite Hload.
Qed.

Lemma insert_exception_propagates_witness :
  ∃ s1 s2 s3,
    configured (faulty_world 200 (Ok tt) (Raise (ClientError "insert")) example_payload)
      = true
    ∧ fetch_nasa_data
        (faulty_world 200 (Ok tt) (Raise (ClientError "insert")) example_payload)
        (started start) = (Ok (example_payload, example_date), s1)
    ∧ save_raw_to_gcs
        (faulty_world 200 (Ok tt) (Raise (ClientError "insert")) example_payload)
        example_payload example_date s1 = (Ok tt, s2)
    ∧ transform_records
        (faulty_world 200 (Ok tt) (Raise (ClientError "insert")) example_payload)
        example_payload example_date s2
      = (Ok [example_record "2024-05-01T12:00:00.000001"], s3)
    ∧ [example_record "2024-05-01T12:00:00.000001"] ≠ []
    ∧ etl_nasa_neo
        (faulty_world 200 (Ok tt) (Raise (ClientError "insert")) example_payload) start
      = (Raise (ClientError "insert"),
         after s3
           [insert_of
              (faulty_world 200 (Ok tt) (Raise (ClientError "insert")) example_payload)
              [example_record "2024-05-01T12:00:00.000001"]]).
Proof.
  pose (E := faulty_world 200 (Ok tt) (Raise (ClientError "insert")) example_payload).
  pose (s1 := snd (fetch_nasa_data E (started start))).
  pose (s2 := snd (save_raw_to_gcs E example_payload example_date s1)).
  pose (s3 := snd (transform_records E example_payload example_date s2)).
  assert (H0 : configured E = true) by reflexivity.
  assert (H1 : fetch_nasa_data E (started start)
               = (Ok (example_payload, example_date), s1))
    by (vm_compute; reflexivity).
  assert (H2 : save_raw_to_gcs E example_payload example_date s1 = (Ok tt, s2))
    by (vm_compute; reflexivity).
  assert (H3 : transform_records E example_payload example_date s2
               = (Ok [example_record "2024-05-01T12:00:00.000001"], s3))
    by (vm_compute; reflexivity).
  assert (H4 : [example_record "2024-05-01T12:00:00.000001"] ≠ []) by discriminate.
  exists s1, s2, s3.
  split; [exact H0|]. split; [exact H1|]. split; [exact H2|]. split; [exact H3|].
  split; [exact H4|].
  exact (proj2 (insert_exception_propagates E start example_payload example_date
                  s1 s2 _ s3 (ClientError "insert") H0 H1 H2 H3 H4 eq_refl)).
Defined.

(** ** Which parts of an object the Transformer reads *)

Lemma record_fields_other_approaches o a l l' :
  record_fields (VDict (<["close_approach_data" := l]> o)) a
  = record_fields (VDict (<["close_approach_data" := l']> o)) a.
Proof.
  unfold record_fields. cbn [getitem].
  by rewrite !lookup_insert_ne by done.
Qed.

(** X6.  Only the first close-approach entry of an object is read: two
    payloads whose objects under the date key differ only in the entries
    after the first one of some object give the same outcome and the same
    state, whatever those later entries are. *)
Theorem later_approaches_are_ignored E data data' d s before o a others others' rest :
  date_objects data d
    = Ok (before
          ++ VDict (<["close_approach_data" := VList (a :: others)]> o) :: rest) →
  date_objects data' d
    = Ok (before
          ++ VDict (<["close_approach_data" := VList (a :: others')]> o) :: rest) →
  transform_records E data d s = transform_records E data' d s.
Proof.
  intros Hd Hd'.
  rewrite !transform_records_unfold, Hd, Hd', !transform_loop_app.
  destruct (transform_loop E before [] s) as [[recs|e] s1]; [|reflexivity].
  rewrite !transform_loop_step. unfold flatten_object. cbn [getitem].
  rewrite !lookup_insert_eq. cbn [mbind result_bind truthy length Nat.eqb negb
    getitem_index nth_error].
  by rewrite (record_fields_other_approaches o a _ (VList (a :: others'))).
Qed.

Lemma later_approaches_are_ignored_witness :
  date_objects
    (payload_of "2024-05-01"
       [VDict (<["close_approach_data" := VList [example_approach; VNone]]> ∅)])
    example_date
  = Ok ([] ++ VDict (<["close_approach_data" := VList (example_approach :: [VNone])]> ∅)
           :: [])
  ∧ date_objects
      (payload_of "2024-05-01"
         [VDict (<["close_approach_data" := VList [example_approach]]> ∅)])
      example_date
    = Ok ([] ++ VDict (<["close_approach_data" := VList (example_approach :: [])]> ∅)
             :: [])
  ∧ transform_records example_env
      (payload_of "2024-05-01"
         [VDict (<["close_approach_data" := VList [example_approach; VNone]]> ∅)])
      example_date start
    = transform_records example_env
        (payload_of "2024-05-01"
           [VDict (<["close_approach_data" := VList [example_approach]]> ∅)])
        example_date start.
Proof.
  split; [vm_compute; reflexivity|]. split; [vm_compute; reflexivity|].
  apply (later_approaches_are_ignored example_env _ _ example_date start []
           ∅ example_approach [VNone] [] []); vm_compute; reflexivity.
Defined.

(** X7.  The skip test is a truth test, not an emptiness test on a list: an
    object whose "close_approach_data" is any falsy value ([None], [false],
    0, an empty string or mapping, an empty list) is skipped, with or
    without it the outcome and the state are the same; and a truthy value
    that is not a list never gives a row: the Transformer raises when the
    loop reaches such an object. *)
Theorem approach_truth_test :
  (∀ E data data' d s before obj rest cad,
     date_objects data d = Ok (before ++ obj :: rest) →
     date_objects data' d = Ok (before ++ rest) →
     getitem obj "close_approach_data" = Ok cad →
     truthy cad = false →
     transform_records E data d s = transform_records E data' d s)
  ∧ (∀ E data d s before obj rest recs s1 cad,
       date_objects data d = Ok (before ++ obj :: rest) →
       transform_loop E before [] s = (Ok recs, s1) →
       getitem obj "close_approach_data" = Ok cad →
       truthy cad = true →
       (∀ l, cad ≠ VList l) →
       ∃ e, transform_records E data d s = (Raise e, s1)).
Proof.
  split.
  - intros E data data' d s before obj rest cad Hd Hd' Hcad Hfalse.
    rewrite !transform_records_unfold, Hd, Hd', !transform_loop_app.
    destruct (transform_loop E before [] s) as [[recs|e] s1]; [|reflexivity].
    rewrite transform_loop_step. unfold flatten_object.
    rewrite Hcad. cbn [mbind result_bind]. by rewrite Hfalse.
  - intros E data d s before obj rest recs s1 cad Hd Hbefore Hcad Htrue Hlist.
    rewrite transform_records_unfold, Hd, transform_loop_app, Hbefore,
      transform_loop_step.
    destruct (flatten_object obj) as [[mk|]|e] eqn:Hobj; [| |eauto].
    + exfalso. apply flatten_object_Some in Hobj as [Hhas _].
      unfold has_approach in Hhas.
      destruct (first_approach obj) as [a|] eqn:Ha; [|discriminate].
      apply first_approach_inv in Ha as (l & Ha). apply getitem_member in Ha.
      rewrite Hcad in Ha. injection Ha as ->. by eapply Hlist.
    + exfalso. unfold flatten_object in Hobj. rewrite Hcad in Hobj.
      cbn [mbind result_bind] in Hobj. rewrite Htrue in Hobj. cbn [negb] in Hobj.
      destruct (getitem_index cad 0); [|discriminate].
      cbn [mbind result_bind] in Hobj.
      destruct (record_fields obj _); discriminate.
Qed.

Lemma approach_truth_test_witness :
  transform_records example_env
    (payload_of "2024-05-01" [dict [("close_approach_data", VNone)]; example_object])
    example_date start
  = transform_records example_env example_payload example_date start
  ∧ ∃ e,
      transform_records example_env
        (payload_of "2024-05-01"
           [example_object; dict [("close_approach_data", VStr "soon")]])
        example_date start
      = (Raise e, tick 1 start).
Proof.
  split.
  - apply (proj1 approach_truth_test example_env _ _ example_date start []
             (dict [("close_approach_data", VNone)]) [example_object] VNone);
      vm_compute; reflexivity.
  - apply (proj2 approach_truth_test example_env _ example_date start
             [example_object] (dict [("close_approach_data", VStr "soon")]) []
             [example_record "2024-05-01T12:00:00"] (tick 1 start) (VStr "soon"));
      try (vm_compute; reflexivity).
    intros l. discriminate.
Defined.

(** X8.  For an object whose numeric fields, where they are strings, are
    ASCII strings (the domain on which the model of [float] is exact), the
    first read of a row field that fails decides the outcome, whatever the
    failure: a value that [float] rejects raises [ValueError] (an ASCII string
    that is no number) or [TypeError] ([None], a list, a mapping) just as a
    missing key raises [KeyError].  The exception leaves the state reached
    after the objects before it: the row is not built, the clock is not read
    for it, and the rows built so far are lost. *)
Theorem first_failing_field_raises E data d s before obj rest recs s1 a e :
  date_objects data d = Ok (before ++ obj :: rest) →
  transform_loop E before [] s = (Ok recs, s1) →
  first_approach obj = Some a →
  Forall (fun t => ascii_only t = true) (float_strings obj a) →
  first_raise (field_reads obj a) = Some e →
  transform_records E data d s = (Raise e, s1)
  ∧ s1 = tick (length recs) s.
Proof.
  intros Hd Hbefore Ha _ He.
  rewrite transform_records_unfold, Hd, transform_loop_app, Hbefore,
    transform_loop_step.
  apply first_approach_inv in Ha as (l & Ha). apply getitem_member in Ha.
  pose proof (record_fields_first_raise obj a) as Hf. rewrite He in Hf.
  unfold flatten_object. rewrite Ha. cbn. rewrite Hf.
  split; [reflexivity|].
  apply transform_loop_Ok in Hbefore as (rs & _ & -> & ->). reflexivity.
Qed.

Lemma first_failing_field_raises_witness :
  date_objects (payload_of "2024-05-01" [example_object; unreadable_object])
    example_date = Ok ([example_object] ++ unreadable_object :: [])
  ∧ transform_loop example_env [example_object] [] start
    = (Ok [example_record "2024-05-01T12:00:00"], tick 1 start)
  ∧ first_approach unreadable_object = Some example_approach
  ∧ Forall (fun t => ascii_only t = true)
      (float_strings unreadable_object example_approach)
  ∧ float_strings unreadable_object example_approach
    = ["bright"; "12.4"; "450000"]
  ∧ first_raise (field_reads unreadable_object example_approach) = Some ValueError
  ∧ transform_records example_env
      (payload_of "2024-05-01" [example_object; unreadable_object]) example_date start
    = (Raise ValueError, tick 1 start).
Proof.
  assert (H1 : date_objects (payload_of "2024-05-01" [example_object; unreadable_object])
                 example_date = Ok ([example_object] ++ unreadable_object :: []))
    by (vm_compute; reflexivity).
  assert (H2 : transform_loop example_env [example_object] [] start
               = (Ok [example_record "2024-05-01T12:00:00"], tick 1 start))
    by (vm_compute; reflexivity).
  assert (H3 : first_approach unreadable_object = Some example_approach)
    by (vm_compute; reflexivity).
  assert (H4 : first_raise (field_reads unreadable_object example_approach)
               = Some ValueError)
    by (vm_compute; reflexivity).
  assert (H5 : Forall (fun t => ascii_only t = true)
                 (float_strings unreadable_object example_approach)).
  { change (float_strings unreadable_object example_approach)
      with ["bright"; "12.4"; "450000"].
    repeat constructor. }
  split; [exact H1|]. split; [exact H2|]. split; [exact H3|]. split; [exact H5|].
  split; [reflexivity|]. split; [exact H4|].
  exact (proj1 (first_failing_field_raises example_env _ example_date start
                  [example_object] unreadable_object [] _ _ example_approach
                  ValueError H1 H2 H3 H5 H4)).
Defined.

(** ** Dates as strings *)

Lemma append_inj (a a' b b' : string) :
  String.length a = String.length a' →
  (a ++ b)%string = (a' ++ b')%string → a = a' ∧ b = b'.
Proof.
  revert a'. induction a as [|c a IH]; intros [|c' a'] Hlen H;
    try discriminate Hlen.
  - by split.
  - cbn in H. injection H as -> H. injection Hlen as Hlen.
    destruct (IH a' Hlen H) as [-> ->]. by split.
Qed.

Lemma append_length (a b : string) :
  String.length (a ++ b) = (String.length a + String.length b)%nat.
Proof. induction a as [|c a IH]; [reflexivity|]. simpl. by rewrite IH. Qed.

Lemma append_inj_r (a a' b b' : string) :
  String.length b = String.length b' →
  (a ++ b)%string = (a' ++ b')%string → a = a' ∧ b = b'.
Proof.
  intros Hlen H. apply append_inj; [|exact H].
  apply (f_equal String.length) in H. rewrite !append_length in H. lia.
Qed.

Lemma append_assoc (a b c : string) :
  ((a ++ b) ++ c)%string = (a ++ (b ++ c))%string.
Proof.
  induction a as [|x a IH]; [reflexivity|].
  change (String x ((a ++ b) ++ c)%string = String x (a ++ (b ++ c))%string).
  by rewrite IH.
Qed.

Lemma pad_checked_spec width bound n :
  pad_checked width bound = true →
  (N.to_nat n < bound)%nat →
  String.length (pad width n) = width ∧ unpad (pad width n) = Some n.
Proof.
  unfold pad_checked. rewrite forallb_forall. intros Hall Hn.
  specialize (Hall (N.to_nat n)). rewrite N2Nat.id in Hall. cbv zeta in Hall.
  assert (Hin : In (N.to_nat n) (seq 0 bound)) by (apply in_seq; lia).
  apply Hall in Hin. apply andb_true_iff in Hin as [Hlen Hun].
  split; [by apply Nat.eqb_eq|].
  destruct (unpad (pad width n)) as [m|]; [|discriminate].
  apply N.eqb_eq in Hun. by subst.
Qed.

Lemma pad_4 n :
  (n < 10000)%N →
  String.length (pad 4 n) = 4%nat ∧ unpad (pad 4 n) = Some n.
Proof.
  intros Hn. apply (pad_checked_spec 4 (N.to_nat 10000)); [vm_compute; reflexivity|lia].
Qed.

Lemma pad_2 n :
  (n < 100)%N →
  String.length (pad 2 n) = 2%nat ∧ unpad (pad 2 n) = Some n.
Proof.
  intros Hn. apply (pad_checked_spec 2 (N.to_nat 100)); [vm_compute; reflexivity|lia].
Qed.

Lemma str_date_length d : fits d → String.length (str_date d) = 10%nat.
Proof.
  intros (Hy & Hm & Hd). unfold str_date.
  rewrite !append_length.
  rewrite (proj1 (pad_4 _ Hy)), (proj1 (pad_2 _ Hm)), (proj1 (pad_2 _ Hd)).
  reflexivity.
Qed.

Lemma str_date_inj d1 d2 : fits d1 → fits d2 → str_date d1 = str_date d2 → d1 = d2.
Proof.
  intros (Hy1 & Hm1 & Hd1) (Hy2 & Hm2 & Hd2). unfold str_date. intros H.
  apply append_inj in H as [Hy H];
    [|by rewrite (proj1 (pad_4 _ Hy1)), (proj1 (pad_4 _ Hy2))].
  apply (append_inj "-" "-") in H as [_ H]; [|reflexivity].
  apply append_inj in H as [Hm H];
    [|by rewrite (proj1 (pad_2 _ Hm1)), (proj1 (pad_2 _ Hm2))].
  apply (append_inj "-" "-") in H as [_ Hd]; [|reflexivity].
  apply (f_equal unpad) in Hy, Hm, Hd.
  rewrite (proj2 (pad_4 _ Hy1)), (proj2 (pad_4 _ Hy2)) in Hy.
  rewrite (proj2 (pad_2 _ Hm1)), (proj2 (pad_2 _ Hm2)) in Hm.
  rewrite (proj2 (pad_2 _ Hd1)), (proj2 (pad_2 _ Hd2)) in Hd.
  destruct d1, d2; cbn in *. congruence.
Qed.

(** X9.  The string form of a date has ten characters and determines the
    date, and so does the blob path built from it: two different dates are
    never looked up under the same key of the feed nor archived under the
    same path. *)
Theorem date_strings_are_injective d1 d2 :
  fits d1 → fits d2 →
  String.length (str_date d1) = 10%nat
  ∧ (str_date d1 = str_date d2 → d1 = d2)
  ∧ (blob_path d1 = blob_path d2 → d1 = d2).
Proof.
  intros H1 H2. split; [by apply str_date_length|].
  split; [by apply str_date_inj|].
  unfold blob_path. intros H.
  rewrite <- !append_assoc in H.
  apply append_inj_r in H as [H _]; [|reflexivity].
  apply append_inj_r in H as [_ H];
    [|by rewrite !str_date_length].
  by apply str_date_inj.
Qed.

Lemma date_strings_are_injective_witness :
  fits example_date
  ∧ fits {| year := 2024; month := 5; day := 2 |}
  ∧ String.length (str_date example_date) = 10%nat
  ∧ (str_date example_date = str_date {| year := 2024; month := 5; day := 2 |} →
     example_date = {| year := 2024; month := 5; day := 2 |})
  ∧ (blob_path example_date = blob_path {| year := 2024; month := 5; day := 2 |} →
     example_date = {| year := 2024; month := 5; day := 2 |}).
Proof.
  assert (H1 : fits example_date) by (repeat split; reflexivity).
  assert (H2 : fits {| year := 2024; month := 5; day := 2 |})
    by (repeat split; reflexivity).
  split; [exact H1|]. split; [exact H2|].
  exact (date_strings_are_injective _ _ H1 H2).
Defined.

(** ** What the answer counts *)

(** X10.  In a successful run the number reported as [rows_inserted] is the
    number of objects under the date key of the fetched payload that have at
    least one close-approach entry, whether or not the insert API accepted
    the rows. *)
Theorem rows_inserted_counts_approached_objects E s resp s' :
  configured E = true →
  etl_nasa_neo E s = (Ok resp, s') →
  ∃ data d neos,
    fst (fetch_nasa_data E (started s)) = Ok (data, d)
    ∧ date_objects data d = Ok neos
    ∧ resp = success_response (length (List.filter has_approach neos)) d.
Proof.
  intros Hcfg. rewrite etl_nasa_neo_unfold, Hcfg.
  destruct (fetch_nasa_data E (started s)) as [[[data d]|e] s1] eqn:Hfetch;
    [|discriminate].
  destruct (save_raw_to_gcs E data d s1) as [[[]|e] s2] eqn:Hsave; [|discriminate].
  destruct (transform_records E data d s2) as [[records|e] s3] eqn:Htrans;
    [|discriminate].
  intros H.
  assert (Hresp : resp = success_response (length records) d).
  { destruct records as [|r0 records]; [by injection H as <- _|].
    destruct (load_to_bigquery E (r0 :: records) s3) as [[[]|e] s4];
      [by injection H as <- _|discriminate]. }
  apply transform_records_Ok in Htrans as (neos & Hneos & Hall & _).
  destruct (flatten_all_Ok _ _ _ _ Hall) as (Hrows & _ & _).
  exists data, d, neos. split; [reflexivity|]. split; [exact Hneos|].
  by rewrite Hresp, (Forall2_length _ _ _ Hrows).
Qed.

Lemma rows_inserted_counts_approached_objects_witness :
  configured (world (Some "DEMO_KEY")
                (payload_of "2024-05-01" [bare_object; example_object]) [row_error])
    = true
  ∧ etl_nasa_neo (world (Some "DEMO_KEY")
                    (payload_of "2024-05-01" [bare_object; example_object])
                    [row_error]) start
    = (Ok (success_response 1 example_date),
       snd (etl_nasa_neo (world (Some "DEMO_KEY")
                            (payload_of "2024-05-01" [bare_object; example_object])
                            [row_error]) start))
  ∧ ∃ data d neos,
      fst (fetch_nasa_data
             (world (Some "DEMO_KEY")
                (payload_of "2024-05-01" [bare_object; example_object]) [row_error])
             (started start)) = Ok (data, d)
      ∧ date_objects data d = Ok neos
      ∧ success_response 1 example_date
        = success_response (length (List.filter has_approach neos)) d.
Proof.
  pose (E := world (Some "DEMO_KEY")
               (payload_of "2024-05-01" [bare_object; example_object]) [row_error]).
  assert (H0 : configured E = true) by reflexivity.
  assert (H1 : etl_nasa_neo E start
               = (Ok (success_response 1 example_date), snd (etl_nasa_neo E start)))
    by (vm_compute; reflexivity).
  split; [exact H0|]. split; [exact H1|].
  exact (rows_inserted_counts_approached_objects E start _ _ H0 H1).
Defined.

(** ** Payloads of another shape *)

Lemma transform_records_head_raises E data d s obj rest e :
  date_objects data d = Ok (obj :: rest) →
  flatten_object obj = Raise e →
  transform_records E data d s = (Raise e, s).
Proof.
  intros Hd Hobj.
  by rewrite transform_records_unfold, Hd, transform_loop_step, Hobj.
Qed.

(** X11.  The Transformer expects a mapping holding a mapping holding a list
    of mappings, and says so by the exception it raises, leaving the state
    untouched: a payload that is no mapping raises [TypeError]; a
    "near_earth_objects" that is no mapping raises [AttributeError]; under
    the date key, a value that cannot be iterated, or a non-empty string or
    mapping (whose items are strings), raises [TypeError], while an empty
    string or mapping counts as no object at all; and an item of the list
    that is no mapping raises [TypeError] when the loop reaches it. *)
Theorem malformed_payload_raises :
  (∀ E data d s,
     (∀ m, data ≠ VDict m) →
     transform_records E data d s = (Raise TypeError, s))
  ∧ (∀ E m neo d s,
       m !! "near_earth_objects" = Some neo →
       (∀ x, neo ≠ VDict x) →
       transform_records E (VDict m) d s = (Raise AttributeError, s))
  ∧ (∀ E m neo v d s,
       m !! "near_earth_objects" = Some (VDict neo) →
       neo !! str_date d = Some v →
       (v = VStr "" ∨ v = VDict ∅ →
        transform_records E (VDict m) d s
        = (Ok [], after s [Print [VStr "Transformed 0 records"]]))
       ∧ ((∀ l, v ≠ VList l) → v ≠ VStr "" → v ≠ VDict ∅ →
          transform_records E (VDict m) d s = (Raise TypeError, s)))
  ∧ (∀ E data d s before obj rest recs s1,
       date_objects data d = Ok (before ++ obj :: rest) →
       transform_loop E before [] s = (Ok recs, s1) →
       (∀ o, obj ≠ VDict o) →
       transform_records E data d s = (Raise TypeError, s1)).
Proof.
  split; [|split; [|split]].
  - intros E data d s Hdata. rewrite transform_records_unfold. unfold date_objects.
    destruct data; try reflexivity. by destruct (Hdata d0).
  - intros E m neo d s Hm Hneo. rewrite transform_records_unfold.
    unfold date_objects. cbn [getitem]. rewrite Hm. cbn [mbind result_bind].
    destruct neo; try reflexivity. by destruct (Hneo d0).
  - intros E m neo v d s Hm Hv.
    assert (Hd : date_objects (VDict m) d = iterate v).
    { unfold date_objects. cbn [getitem]. rewrite Hm. cbn [mbind result_bind dict_get].
      by rewrite Hv. }
    split.
    + intros Hempty. rewrite transform_records_unfold, Hd.
      destruct Hempty as [-> | ->]; [reflexivity|].
      cbn [iterate]. by rewrite map_to_list_empty.
    + intros Hlist Hstr Hdict.
      destruct v as [| | | |t|l|x]; try by rewrite transform_records_unfold, Hd.
      * destruct t as [|c t]; [done|].
        apply (transform_records_head_raises _ _ _ _ (VStr (String c ""))
                 (map (fun c => VStr (String c "")) (list_ascii_of_string t)));
          [by rewrite Hd|reflexivity].
      * by destruct (Hlist l).
      * destruct (map_to_list x) as [|[k y] kvs] eqn:Hx.
        { apply map_to_list_empty_iff in Hx as ->. done. }
        apply (transform_records_head_raises _ _ _ _ (VStr k)
                 (map (fun kv => VStr (fst kv)) kvs));
          [rewrite Hd; cbn [iterate]; by rewrite Hx|reflexivity].
  - intros E data d s before obj rest recs s1 Hd Hbefore Hobj.
    rewrite transform_records_unfold, Hd, transform_loop_app, Hbefore,
      transform_loop_step.
    destruct obj; try reflexivity. by destruct (Hobj d0).
Qed.

Lemma malformed_payload_raises_witness :
  transform_records example_env (VList []) example_date start
    = (Raise TypeError, start)
  ∧ transform_records example_env
      (VDict {["near_earth_objects" := VList []]}) example_date start
    = (Raise AttributeError, start)
  ∧ transform_records example_env
      (VDict {["near_earth_objects" := VDict {["2024-05-01" := VInt 7]}]})
      example_date start
    = (Raise TypeError, start)
  ∧ transform_records example_env
      (payload_of "2024-05-01" [example_object; VStr "x"]) example_date start
    = (Raise TypeError, tick 1 start).
Proof.
  split; [|split; [|split]].
  - apply (proj1 malformed_payload_raises example_env (VList []) example_date start).
    intros m. discriminate.
  - apply (proj1 (proj2 malformed_payload_raises) example_env
             {["near_earth_objects" := VList []]} (VList []) example_date start);
      [vm_compute; reflexivity|intros x; discriminate].
  - pose (neo := ({["2024-05-01" := VInt 7]} : gmap string value)).
    pose (m := ({["near_earth_objects" := VDict neo]} : gmap string value)).
    assert (Hm : m !! "near_earth_objects" = Some (VDict neo))
      by (vm_compute; reflexivity).
    assert (Hv : neo !! str_date example_date = Some (VInt 7))
      by (vm_compute; reflexivity).
    apply (proj2 (proj1 (proj2 (proj2 malformed_payload_raises)) example_env
                    m neo (VInt 7) example_date start Hm Hv));
      [intros l; discriminate|discriminate|discriminate].
  - apply (proj2 (proj2 (proj2 malformed_payload_raises)) example_env
             (payload_of "2024-05-01" [example_object; VStr "x"]) example_date start
             [example_object] (VStr "x") []
             [example_record "2024-05-01T12:00:00"] (tick 1 start));
      [vm_compute; reflexivity|vm_compute; reflexivity|intros o; discriminate].
Defined.

(** ** Fields the Transformer does not read *)

Lemma flatten_object_extra_key o k v :
  k ∉ object_keys →
  flatten_object (VDict (<[k := v]> o)) = flatten_object (VDict o).
Proof.
  intros Hk. unfold object_keys in Hk.
  repeat (apply not_elem_of_cons in Hk as [? Hk]).
  unfold flatten_object. cbn [getitem].
  rewrite lookup_insert_ne by done.
  destruct (o !! "close_approach_data") as [cad|]; [|reflexivity].
  cbn [mbind result_bind]. destruct (negb (truthy cad)); [reflexivity|].
  destruct (getitem_index cad 0) as [a|]; [|reflexivity].
  cbn [mbind result_bind]. unfold record_fields. cbn [getitem].
  by rewrite !lookup_insert_ne by done.
Qed.

Lemma record_fields_extra_approach_key obj ao k v :
  k ∉ approach_keys →
  record_fields obj (VDict (<[k := v]> ao)) = record_fields obj (VDict ao).
Proof.
  intros Hk. unfold approach_keys in Hk.
  repeat (apply not_elem_of_cons in Hk as [? Hk]).
  unfold record_fields. cbn [getitem].
  by rewrite !lookup_insert_ne by done.
Qed.

(** X12.  A key the Transformer does not read changes nothing: adding any
    other key, with any value, to an asteroid object or to its first
    close-approach entry leaves the outcome and the state of the Transformer
    the same. *)
Theorem unread_keys_are_ignored :
  (∀ E data data' d s before o k v rest,
     k ∉ object_keys →
     date_objects data d = Ok (before ++ VDict o :: rest) →
     date_objects data' d = Ok (before ++ VDict (<[k := v]> o) :: rest) →
     transform_records E data d s = transform_records E data' d s)
  ∧ (∀ E data data' d s before o ao others k v rest,
       k ∉ approach_keys →
       date_objects data d
         = Ok (before
               ++ VDict (<["close_approach_data" := VList (VDict ao :: others)]> o)
               :: rest) →
       date_objects data' d
         = Ok (before
               ++ VDict (<["close_approach_data" :=
                             VList (VDict (<[k := v]> ao) :: others)]> o)
               :: rest) →
       transform_records E data d s = transform_records E data' d s).
Proof.
  split.
  - intros E data data' d s before o k v rest Hk Hd Hd'.
    rewrite !transform_records_unfold, Hd, Hd', !transform_loop_app.
    destruct (transform_loop E before [] s) as [[recs|e] s1]; [|reflexivity].
    by rewrite !transform_loop_step, flatten_object_extra_key.
  - intros E data data' d s before o ao others k v rest Hk Hd Hd'.
    rewrite !transform_records_unfold, Hd, Hd', !transform_loop_app.
    destruct (transform_loop E before [] s) as [[recs|e] s1]; [|reflexivity].
    rewrite !transform_loop_step. unfold flatten_object. cbn [getitem].
    rewrite !lookup_insert_eq. cbn [mbind result_bind truthy length Nat.eqb negb
      getitem_index nth_error].
    rewrite (record_fields_other_approaches o (VDict (<[k := v]> ao))
               (VList (VDict (<[k := v]> ao) :: others))
               (VList (VDict ao :: others))).
    by rewrite (record_fields_extra_approach_key _ ao k v Hk).
Qed.

Lemma unread_keys_are_ignored_witness :
  ("links" ∉ object_keys)
  ∧ ("epoch_date_close_approach" ∉ approach_keys)
  ∧ transform_records example_env
      (payload_of "2024-05-01" [VDict {["close_approach_data" := VList []]}])
      example_date start
    = transform_records example_env
        (payload_of "2024-05-01"
           [VDict (<["links" := VNone]> {["close_approach_data" := VList []]})])
        example_date start
  ∧ transform_records example_env
      (payload_of "2024-05-01"
         [VDict (<["close_approach_data" := VList (VDict ∅ :: [])]> ∅)])
      example_date start
    = transform_records example_env
        (payload_of "2024-05-01"
           [VDict (<["close_approach_data" :=
                       VList (VDict (<["epoch_date_close_approach" := VInt 0]> ∅)
                              :: [])]> ∅)])
        example_date start.
Proof.
  assert (H1 : "links" ∉ object_keys).
  { unfold object_keys. rewrite !not_elem_of_cons.
    repeat split; try discriminate. apply not_elem_of_nil. }
  assert (H2 : "epoch_date_close_approach" ∉ approach_keys).
  { unfold approach_keys. rewrite !not_elem_of_cons.
    repeat split; try discriminate. apply not_elem_of_nil. }
  split; [exact H1|]. split; [exact H2|]. split.
  - apply (proj1 unread_keys_are_ignored example_env _ _ example_date start []
             {["close_approach_data" := VList []]} "links" VNone [] H1);
      vm_compute; reflexivity.
  - apply (proj2 unread_keys_are_ignored example_env _ _ example_date start []
             ∅ ∅ [] "epoch_date_close_approach" (VInt 0) [] H2);
      vm_compute; reflexivity.
Defined.
